(** * geofront.backends: GitHub and Bitbucket Server (Stash) teams and key stores

    A shallow embedding of [geofront/backends/github.py] and
    [geofront/backends/stash.py].  Python values are an inductive type,
    exceptions are an error outcome, and every [urlopen] goes through one
    state monad that threads the remote provider's state and records the
    requests that were sent. *)

From Stdlib Require Import String Ascii List ZArith Bool Lia DecimalString.
Import ListNotations.
Set Warnings "-register-all".
Open Scope string_scope.
Open Scope Z_scope.

(** ** Python values *)

(** What [json.load] produces, plus tuples: the values that flow through
    [Identity.identifier], [Identity.access_token] and the continuation
    state. *)
Inductive value : Type :=
| VNone
| VBool (b : bool)
| VInt (z : Z)
| VStr (s : string)
| VList (items : list value)
| VTuple (items : list value)
| VDict (entries : list (string * value)).

Definition str_of_Z (z : Z) : string := NilEmpty.string_of_int (Z.to_int z).

(** [repr(v)]; string escapes and the one-tuple comma are not rendered. *)
Fixpoint py_repr (v : value) : string :=
  match v with
  | VNone => "None"
  | VBool true => "True"
  | VBool false => "False"
  | VInt z => str_of_Z z
  | VStr s => "'" ++ s ++ "'"
  | VList l => "[" ++ String.concat ", " (map py_repr l) ++ "]"
  | VTuple l => "(" ++ String.concat ", " (map py_repr l) ++ ")"
  | VDict kvs =>
      "{" ++ String.concat ", "
               (map (fun kv => "'" ++ fst kv ++ "': " ++ py_repr (snd kv)) kvs)
          ++ "}"
  end.

(** [str(v)], as [str.format] renders a positional argument. *)
Definition py_str (v : value) : string :=
  match v with
  | VStr s => s
  | _ => py_repr v
  end.

(** Truth value of [v] in an [if]. *)
Definition truthy (v : value) : bool :=
  match v with
  | VNone => false
  | VBool b => b
  | VInt z => negb (z =? 0)
  | VStr s => negb (s =? "")%string
  | VList l | VTuple l => negb (Nat.eqb (List.length l) 0)
  | VDict kvs => negb (Nat.eqb (List.length kvs) 0)
  end.

Fixpoint chars (s : string) : list value :=
  match s with
  | EmptyString => []
  | String c s' => VStr (String c EmptyString) :: chars s'
  end.

Fixpoint lookup {A : Type} (k : string) (kvs : list (string * A)) : option A :=
  match kvs with
  | [] => None
  | (k', v) :: rest => if (k =? k')%string then Some v else lookup k rest
  end.

(** ** Exceptions and outcomes *)

Record response : Type := mkResponse {
  code : Z;                       (* response.code *)
  mimetype : string;              (* parse_options_header(Content-Type)[0] *)
  text : string;                  (* response.read().decode() *)
  json : option value;            (* json.load(response); None: not JSON *)
  form : list (string * string)   (* url_decode_stream(response) *)
}.

Inductive exn : Type :=
| AuthenticationError (msg : string)
| DuplicatePublicKeyError (msg : value)
| KeyError (key : string)
| IndexError
| TypeError
| ValueError
| AttributeError (attr : string)
| AssertionError
| URLError
| HTTPError (r : response).

(** [except IOError]: [URLError] and [HTTPError] are both [OSError]s. *)
Definition is_IOError (e : exn) : bool :=
  match e with
  | URLError | HTTPError _ => true
  | _ => false
  end.

Definition is_AuthenticationError (e : exn) : bool :=
  match e with
  | AuthenticationError _ => true
  | _ => false
  end.

Inductive outcome (A : Type) : Type :=
| Ret (a : A)
| Raise (e : exn)
| OutOfFuel.
Arguments Ret {A} a.
Arguments Raise {A} e.
Arguments OutOfFuel {A}.

(** ** Requests *)

Inductive http_method : Type := GET | POST | DELETE.

Definition method_eqb (a b : http_method) : bool :=
  match a, b with
  | GET, GET | POST, POST | DELETE, DELETE => true
  | _, _ => false
  end.

(** How a request is authenticated: not at all, by an
    [Authorization: token ...] header, or by an RSA-signed OAuth1 header
    made by [oauthlib]'s [Client.sign] (the signature itself is not
    modelled). *)
Inductive auth : Type :=
| Anonymous
| TokenAuth (access_token : string)
| OAuth1 (consumer_key rsa_key : string) (resource_owner : option (value * value)).

Inductive payload : Type :=
| NoData
| FormData (fields : list (string * string))   (* url_encode({...}) *)
| JsonData (v : value).                        (* json.dumps({...}) *)

Record Request : Type := mkRequest {
  req_method : http_method;
  req_url : string;
  req_auth : auth;
  req_data : payload
}.

Inductive reply : Type :=
| Answer (r : response)
| Unreachable.

(** The remote provider: some state, and what it answers to a request. *)
Class Remote : Type := {
  world : Type;
  serve : world -> Request -> reply * world
}.

(** ** geofront.identity, geofront.team and geofront.keystore *)

(** The [Team] classes that [Identity.team_type] can hold. *)
Inductive team_class : Type :=
| TeamClass
| GitHubOrganizationClass
| StashTeamClass.

Definition team_class_eqb (a b : team_class) : bool :=
  match a, b with
  | TeamClass, TeamClass
  | GitHubOrganizationClass, GitHubOrganizationClass
  | StashTeamClass, StashTeamClass => true
  | _, _ => false
  end.

(** Both backends derive directly from [Team]. *)
Definition issubclass (c d : team_class) : bool :=
  team_class_eqb c d || team_class_eqb d TeamClass.

Record Identity : Type := mkIdentity {
  team_type : team_class;
  identifier : value;
  access_token : value
}.

(** Modelled from the spec: [geofront.keystore.PublicKey] (and paramiko's
    [PKey] in the Stash backend) is not under src/; a key is its algorithm,
    its material and a display-only comment. *)
Record PublicKey : Type := mkPublicKey {
  algorithm : string;
  material : string;
  comment : string
}.

(** Modelled from the spec: [PublicKey.__eq__] is not under src/; equality
    is over [(algorithm, material)] only. *)
Definition key_eqb (a b : PublicKey) : bool :=
  (algorithm a =? algorithm b)%string && (material a =? material b)%string.

(** The functions of [geofront.keystore] that the backends call; they are
    not under src/ and stay parameters.  A parser answers [None] where the
    Python function raises. *)
Class KeystoreModule : Type := {
  parse_line : string -> option PublicKey;            (* PublicKey.parse_line *)
  parse_openssh_pubkey : string -> option PublicKey;
  PublicKey_str : PublicKey -> string;                (* str(public_key) *)
  format_openssh_pubkey : PublicKey -> string
}.

(** A Python [set] of keys: no two members are [key_eqb]; [set_add] keeps
    the member that is already there. *)
Definition key_in (k : PublicKey) (s : list PublicKey) : bool :=
  existsb (key_eqb k) s.

Definition set_add (k : PublicKey) (s : list PublicKey) : list PublicKey :=
  if key_in k s then s else s ++ [k].

(** ** The monad of network effects *)

Section Effects.
Context {R : Remote}.

Record net : Type := mkNet {
  net_world : world;
  net_log : list Request     (* every request sent so far, oldest first *)
}.

Definition M (A : Type) : Type := net -> outcome A * net.

Definition ret {A} (a : A) : M A := fun s => (Ret a, s).
Definition raise {A} (e : exn) : M A := fun s => (Raise e, s).
Definition out_of_fuel {A} : M A := fun s => (OutOfFuel, s).

Definition bind {A B} (m : M A) (k : A -> M B) : M B :=
  fun s =>
    match m s with
    | (Ret a, s') => k a s'
    | (Raise e, s') => (Raise e, s')
    | (OutOfFuel, s') => (OutOfFuel, s')
    end.

(** [try: m except ...: handler]; the handler re-raises what it does not
    catch. *)
Definition try_except {A} (m : M A) (handler : exn -> M A) : M A :=
  fun s =>
    match m s with
    | (Raise e, s') => handler e s'
    | r => r
    end.

Definition lift {A} (o : outcome A) : M A := fun s => (o, s).

(** [urllib.request.urlopen]: a status outside 2xx is raised as
    [HTTPError] by the default opener. *)
Definition urlopen (rq : Request) : M response :=
  fun s =>
    let (rp, w') := serve (net_world s) rq in
    let s' := mkNet w' (net_log s ++ [rq]) in
    match rp with
    | Unreachable => (Raise URLError, s')
    | Answer r =>
        if (200 <=? code r) && (code r <? 300)
        then (Ret r, s')
        else (Raise (HTTPError r), s')
    end.
End Effects.

Declare Scope py_scope.
Delimit Scope py_scope with py.
Notation "x <- m ;; k" := (bind m (fun x => k))
  (at level 61, m at next level, right associativity) : py_scope.
Notation "m ;;; k" := (bind m (fun _ => k))
  (at level 61, right associativity) : py_scope.
Open Scope py_scope.

(** ** Operations on values that can raise *)

(** [v[k]] for a string key. *)
Definition getitem (v : value) (k : string) : outcome value :=
  match v with
  | VDict kvs =>
      match lookup k kvs with
      | Some x => Ret x
      | None => Raise (KeyError k)
      end
  | _ => Raise TypeError
  end.

(** [v[0]]. *)
Definition getitem0 (v : value) : outcome value :=
  match v with
  | VList (x :: _) | VTuple (x :: _) => Ret x
  | VList [] | VTuple [] => Raise IndexError
  | VStr (String c _) => Ret (VStr (String c EmptyString))
  | VStr EmptyString => Raise IndexError
  | VDict _ => Raise (KeyError "0")
  | VNone | VBool _ | VInt _ => Raise TypeError
  end.

(** [iter(v)]: the items a [for] loop or [yield from] goes through. *)
Definition py_iter (v : value) : outcome (list value) :=
  match v with
  | VList l | VTuple l => Ret l
  | VDict kvs => Ret (map (fun kv => VStr (fst kv)) kvs)
  | VStr s => Ret (chars s)
  | VNone | VBool _ | VInt _ => Raise TypeError
  end.

(** [a, b = v]. *)
Definition unpack2 (v : value) : outcome (value * value) :=
  match py_iter v with
  | Ret [a; b] => Ret (a, b)
  | Ret _ => Raise ValueError
  | Raise e => Raise e
  | OutOfFuel => OutOfFuel
  end.

(** [req.args[k]] on the callback's query parameters. *)
Definition args_getitem (args : list (string * string)) (k : string)
  : outcome string :=
  match lookup k args with
  | Some x => Ret x
  | None => Raise (KeyError k)
  end.

(** [x == v] where [x] is [req.args.get(k)]: a [str] or [None]. *)
Definition opt_str_eqb (x : option string) (v : value) : bool :=
  match x, v with
  | Some s, VStr s' => (s =? s')%string
  | None, VNone => true
  | _, _ => false
  end.

(** [v == s] for a [str] [s]. *)
Definition value_eq_str (v : value) (s : string) : bool :=
  match v with
  | VStr s' => (s' =? s)%string
  | _ => false
  end.

(** [v.startswith(p)]. *)
Definition startswith (v : value) (p : string) : outcome bool :=
  match v with
  | VStr s => Ret (String.prefix p s)
  | _ => Raise (AttributeError "startswith")
  end.

(** [s.rstrip('/')]. *)
Fixpoint rstrip_slash (s : string) : string :=
  match s with
  | EmptyString => EmptyString
  | String c s' =>
      match rstrip_slash s' with
      | EmptyString => if Ascii.eqb c "/" then EmptyString else String c EmptyString
      | t => String c t
      end
  end.

(** ** Loops *)

Inductive control (A : Type) : Type :=
| Continue (a : A)
| Break (a : A).
Arguments Continue {A} a.
Arguments Break {A} a.

Section Loops.
Context {R : Remote}.

(** [for x in items: body], with the loop's variables in [acc]; [Break]
    is the [break] statement. *)
Fixpoint for_each {A B : Type} (items : list A)
  (body : A -> B -> M (control B)) (acc : B) : M (control B) :=
  match items with
  | [] => ret (Continue acc)
  | x :: rest =>
      c <- body x acc ;;
      match c with
      | Continue acc' => for_each rest body acc'
      | Break acc' => ret (Break acc')
      end
  end.

(** A parser of [geofront.keystore] applied to a value: anything but a
    [str] is a [TypeError], a line that does not parse a [ValueError]. *)
Definition call_parser (parse : string -> option PublicKey) (v : value)
  : outcome PublicKey :=
  match v with
  | VStr s =>
      match parse s with
      | Some k => Ret k
      | None => Raise ValueError
      end
  | _ => Raise TypeError
  end.

End Loops.

(** ** geofront.backends.github *)

Module GitHub.
Section GitHub.
Context {R : Remote} {K : KeystoreModule}.

(** [request(access_token, url, method, data)]: the first argument is an
    [Identity] or the token itself. *)
Definition request (token : Identity + value) (url : string)
  (method : http_method) (data : payload) : M value :=
  let token :=
    match token with
    | inl identity => identity.(access_token)
    | inr v => v
    end in
  match token with
  | VStr tok =>                               (* 'token ' + access_token *)
      response <- urlopen (mkRequest method url (TokenAuth tok) data) ;;
      if negb ((mimetype response =? "application/json")%string
               || method_eqb method DELETE)
      then raise AssertionError
      else if method_eqb method DELETE then ret VNone
      else match json response with
           | Some v => ret v
           | None => raise ValueError
           end
  | _ => raise TypeError
  end.

Record GitHubOrganization : Type := mkGitHubOrganization {
  client_id : string;
  client_secret : string;
  org_login : string
}.

Definition AUTHORIZE_URL := "https://github.com/login/oauth/authorize".
Definition ACCESS_TOKEN_URL := "https://github.com/login/oauth/access_token".
Definition USER_URL := "https://api.github.com/user".
Definition ORGS_LIST_URL := "https://api.github.com/user/orgs".

(** [request_authentication]: the authorize URL and the fields of its
    query string ([url_encode] itself is not modelled). *)
Definition request_authentication (self : GitHubOrganization)
  (auth_nonce redirect_url : string) : string * list (string * string) :=
  (AUTHORIZE_URL,
   [("client_id", self.(client_id));
    ("redirect_uri", redirect_url);
    ("scope", "read:org,admin:public_key");
    ("state", auth_nonce)]).

(** [isinstance(response, collections.Mapping) and 'error' in response] *)
Definition is_error_mapping (response : value) : bool :=
  match response with
  | VDict kvs =>
      match lookup "error" kvs with
      | Some _ => true
      | None => false
      end
  | _ => false
  end.

(** [any(o['login'] == org_login for o in response)] *)
Fixpoint any_login (org : string) (os : list value) : outcome bool :=
  match os with
  | [] => Ret false
  | o :: rest =>
      match getitem o "login" with
      | Ret l => if value_eq_str l org then Ret true else any_login org rest
      | Raise e => Raise e
      | OutOfFuel => OutOfFuel
      end
  end.

Definition authorize (self : GitHubOrganization) (identity : Identity)
  : M bool :=
  if negb (issubclass identity.(team_type) GitHubOrganizationClass)
  then ret false
  else
    r <- try_except
           (response <- request (inl identity) ORGS_LIST_URL GET NoData ;;
            ret (Some response))
           (fun e => if is_IOError e then ret None else raise e) ;;
    match r with
    | None => ret false
    | Some response =>
        if is_error_mapping response then ret false
        else
          os <- lift (py_iter response) ;;
          lift (any_login self.(org_login) os)
    end.

(** [urlopen(self.ACCESS_TOKEN_URL, data)] sends this request. *)
Definition access_token_request (self : GitHubOrganization) (code : string)
  (requested_redirect_url : string) : Request :=
  let data := FormData [("client_id", self.(client_id));
                        ("client_secret", self.(client_secret));
                        ("code", code);
                        ("redirect_uri", requested_redirect_url)] in
  mkRequest POST ACCESS_TOKEN_URL Anonymous data.

(** The token exchange of [authenticate]: the POST to [ACCESS_TOKEN_URL]
    and the decoding of its answer into [token_data]. *)
Definition exchange (self : GitHubOrganization) (code : string)
  (requested_redirect_url : string) : M value :=
  response <- urlopen (access_token_request self code requested_redirect_url) ;;
  if (mimetype response =? "application/x-www-form-urlencoded")%string
  then ret (VDict (map (fun kv => (fst kv, VStr (snd kv))) (form response)))
  else if (mimetype response =? "application/json")%string
  then match json response with
       | Some v => ret v
       | None => raise ValueError
       end
  else raise (AuthenticationError
                (ACCESS_TOKEN_URL ++ " sent unsupported content type: "
                   ++ mimetype response)).

(** [req.args['code']] and the check of [req.args['state']]. *)
Definition check_callback (auth_nonce : string)
  (args : list (string * string)) : M string :=
  try_except
    (code <- lift (args_getitem args "code") ;;
     state <- lift (args_getitem args "state") ;;
     if negb (state =? auth_nonce)%string
     then raise (AuthenticationError "")
     else ret code)
    (fun e =>
       match e with
       | KeyError _ => raise (AuthenticationError "")
       | _ => raise e
       end).

Definition authenticate (self : GitHubOrganization) (auth_nonce : string)
  (requested_redirect_url : string) (args : list (string * string))
  : M Identity :=
  code <- check_callback auth_nonce args ;;
  token_data <- exchange self code requested_redirect_url ;;
  token <- lift (getitem token_data "access_token") ;;
  user_data <- request (inr token) USER_URL GET NoData ;;
  login <- lift (getitem user_data "login") ;;
  let identity := mkIdentity GitHubOrganizationClass login token in
  ok <- authorize self identity ;;
  if ok then ret identity
  else raise (AuthenticationError
                ("@" ++ py_str login ++ " user is not a member of @"
                   ++ self.(org_login) ++ " organization")).

(** *** GitHubKeyStore *)

Definition LIST_URL := "https://api.github.com/user/keys".

(** [DEREGISTER_URL.format] on the fields of [key]: the [{id}] field. *)
Definition DEREGISTER_URL (key : value) : outcome string :=
  match getitem key "id" with
  | Ret id => Ret ("https://api.github.com/user/keys/" ++ py_str id)
  | Raise e => Raise e
  | OutOfFuel => OutOfFuel
  end.

Definition register (identity : Identity) (public_key : PublicKey) : M unit :=
  let data := JsonData (VDict [("title", VStr public_key.(comment));
                               ("key", VStr (PublicKey_str public_key))]) in
  request (inl identity) LIST_URL POST data ;;;
  ret tt.

Definition list_keys (identity : Identity) : M (list PublicKey) :=
  keys <- request (inl identity) LIST_URL GET NoData ;;
  items <- lift (py_iter keys) ;;
  c <- for_each items
         (fun key result =>
            line <- lift (getitem key "key") ;;
            pubkey <- lift (call_parser parse_line line) ;;
            ret (Continue (set_add pubkey result)))
         [] ;;
  match c with
  | Continue result | Break result => ret result
  end.

Definition deregister (identity : Identity) (public_key : PublicKey) : M unit :=
  keys <- request (inl identity) LIST_URL GET NoData ;;
  items <- lift (py_iter keys) ;;
  for_each items
    (fun key _ =>
       line <- lift (getitem key "key") ;;
       pubkey <- lift (call_parser parse_line line) ;;
       if key_eqb pubkey public_key
       then
         url <- lift (DEREGISTER_URL key) ;;
         request (inl identity) url DELETE NoData ;;;
         ret (Break tt)
       else ret (Continue tt))
    tt ;;;
  ret tt.

End GitHub.
End GitHub.

(** ** geofront.backends.stash *)

Module Stash.
Section Stash.
Context {R : Remote} {K : KeystoreModule}.

Record StashTeam : Type := mkStashTeam {
  server_url : string;
  consumer_key : string;
  rsa_key : string
}.

(** [StashTeam.__init__] *)
Definition StashTeam_init (server_url consumer_key rsa_key : string)
  : StashTeam :=
  mkStashTeam (rstrip_slash server_url) consumer_key rsa_key.

Record StashKeyStore : Type := mkStashKeyStore {
  team : StashTeam
}.

(** The objects that the URL templates are formatted with. *)
Inductive object : Type :=
| TeamObject (t : StashTeam)
| KeyStoreObject (ks : StashKeyStore).

(** ['{0.server_url}...'.format(obj)]: only a [StashTeam] has the
    attribute [server_url]. *)
Definition format0 (path : string) (obj : object) : outcome string :=
  match obj with
  | TeamObject t => Ret (t.(server_url) ++ path)
  | KeyStoreObject _ => Raise (AttributeError "server_url")
  end.

(** ['{0.server_url}...{1}'.format(obj, v)] *)
Definition format01 (path : string) (obj : object) (v : value)
  : outcome string :=
  match format0 path obj with
  | Ret s => Ret (s ++ py_str v)
  | Raise e => Raise e
  | OutOfFuel => OutOfFuel
  end.

(** [template(...)]: a [str] is not callable. *)
Definition call_str (template : string) : outcome string :=
  Raise TypeError.

Definition AUTHORIZE_URL := "/plugins/servlet/oauth/authorize".
Definition REQUEST_TOKEN_URL := "/plugins/servlet/oauth/request-token".
Definition ACCESS_TOKEN_URL := "/plugins/servlet/oauth/access-token".
Definition USER_URL := "/plugins/servlet/applinks/whoami".
Definition USER_PROFILE_URL := "/users/".

(** [StashTeam.request]: sign with the consumer key and the RSA key, then
    [urlopen]. *)
Definition request (self : StashTeam) (method : http_method) (url : string)
  (body : payload) (resource_owner : option (value * value)) : M response :=
  urlopen (mkRequest method url
             (OAuth1 self.(consumer_key) self.(rsa_key) resource_owner)
             body).

Record AuthenticationContinuation : Type := mkContinuation {
  next_url : string * list (string * value);   (* url, query parameters *)
  state : value
}.

Definition request_authentication (self : StashTeam) (redirect_url : string)
  : M AuthenticationContinuation :=
  url <- lift (format0 REQUEST_TOKEN_URL (TeamObject self)) ;;
  response <- request self POST url NoData None ;;
  let request_token := form response in
  authorize_url <- lift (format0 AUTHORIZE_URL (TeamObject self)) ;;
  token <- lift (args_getitem request_token "oauth_token") ;;
  secret <- lift (args_getitem request_token "oauth_token_secret") ;;
  ret (mkContinuation
         (authorize_url, [("oauth_token", VStr token);
                          ("oauth_callback", VStr redirect_url)])
         (VTuple [VStr token; VStr secret])).

Definition authenticate (self : StashTeam) (state : value)
  (requested_redirect_url : string) (args : list (string * string))
  : M Identity :=
  p <- try_except (lift (unpack2 state))
         (fun e =>
            match e with
            | ValueError => raise (AuthenticationError "")
            | _ => raise e
            end) ;;
  let (oauth_token, oauth_token_secret) := p in
  if negb (opt_str_eqb (lookup "oauth_token" args) oauth_token)
  then raise (AuthenticationError "")
  else
    url <- lift (format0 ACCESS_TOKEN_URL (TeamObject self)) ;;
    response <- request self POST url NoData
                  (Some (oauth_token, oauth_token_secret)) ;;
    let access_token := form response in
    url <- lift (format0 USER_URL (TeamObject self)) ;;
    token <- lift (args_getitem access_token "oauth_token") ;;
    secret <- lift (args_getitem access_token "oauth_token_secret") ;;
    response <- request self GET url NoData (Some (VStr token, VStr secret)) ;;
    let whoami := text response in
    profile <- lift (format01 USER_PROFILE_URL (TeamObject self) (VStr whoami)) ;;
    ret (mkIdentity StashTeamClass (VStr profile)
           (VTuple [VStr token; VStr secret])).

Definition authorize (self : StashTeam) (identity : Identity) : M bool :=
  if negb (issubclass identity.(team_type) StashTeamClass)
  then ret false
  else lift (startswith identity.(identifier) self.(server_url)).

Definition list_groups (self : StashTeam) (identity : Identity)
  : M (list string) :=
  ret [].

(** *** StashKeyStore *)

Definition REGISTER_URL := "/rest/ssh/1.0/keys".
Definition LIST_URL := "/rest/ssh/1.0/keys?start=".
Definition DEREGISTER_URL := "/rest/ssh/1.0/keys/".

(** [StashKeyStore.request] *)
Definition ks_request (self : StashKeyStore) (identity : Identity)
  (method : http_method) (url : string) (body : payload) : M response :=
  p <- lift (unpack2 identity.(access_token)) ;;
  request self.(team) method url body (Some p).

(** The guard of [request_list] and [register]:
    [isinstance(self.team, identity.team_type) and
     identity.identifier.startswith(self.team.server_url)] *)
Definition compatible (self : StashKeyStore) (identity : Identity)
  : outcome bool :=
  if issubclass StashTeamClass identity.(team_type)
  then startswith identity.(identifier) self.(team).(server_url)
  else Ret false.

(** The [while True] loop of the generator [request_list], driven by the
    [for] loop that consumes it: [body] is the consumer's loop body and
    runs at each [yield].  The next page is requested only when the
    consumer asks for an item after the last one of the current page. *)
Fixpoint request_pages {B : Type} (fuel : nat) (self : StashKeyStore)
  (identity : Identity) (start : value)
  (body : value -> B -> M (control B)) (acc : B) : M (control B) :=
  match fuel with
  | O => out_of_fuel
  | S fuel' =>
      url <- lift (format01 LIST_URL (TeamObject self.(team)) start) ;;
      response <- ks_request self identity GET url NoData ;;
      if negb (code response =? 200) then raise AssertionError
      else
        payload <- match json response with
                   | Some v => ret v
                   | None => raise ValueError
                   end ;;
        values <- lift (getitem payload "values") ;;
        items <- lift (py_iter values) ;;
        c <- for_each items body acc ;;
        match c with
        | Break acc' => ret (Break acc')
        | Continue acc' =>
            last <- lift (getitem payload "isLastPage") ;;
            if truthy last then ret (Continue acc')
            else
              start' <- lift (getitem payload "nextPageStart") ;;
              request_pages fuel' self identity start' body acc'
        end
  end.

(** [for key in self.request_list(identity): body] *)
Definition for_request_list {B : Type} (fuel : nat) (self : StashKeyStore)
  (identity : Identity) (body : value -> B -> M (control B)) (acc : B)
  : M (control B) :=
  ok <- lift (compatible self identity) ;;
  if negb ok then ret (Continue acc)
  else request_pages fuel self identity (VInt 0) body acc.

Definition register (self : StashKeyStore) (identity : Identity)
  (public_key : PublicKey) : M unit :=
  ok <- lift (compatible self identity) ;;
  if negb ok then ret tt
  else
    let data :=
      JsonData (VDict [("text", VStr (format_openssh_pubkey public_key))]) in
    try_except
      (url <- lift (format0 REGISTER_URL (KeyStoreObject self)) ;;
       ks_request self identity POST url data ;;;
       ret tt)
      (fun e =>
         match e with
         | HTTPError r =>
             if code r =? 409 then
               body <- match json r with
                       | Some v => ret v
                       | None => raise ValueError
                       end ;;
               errors <- lift (getitem body "errors") ;;
               first <- lift (getitem0 errors) ;;
               message <- lift (getitem first "message") ;;
               raise (DuplicatePublicKeyError message)
             else raise e
         | _ => raise e
         end).

Definition list_keys (fuel : nat) (self : StashKeyStore) (identity : Identity)
  : M (list PublicKey) :=
  c <- for_request_list fuel self identity
         (fun key result =>
            parsed <- try_except
                        (line <- lift (getitem key "text") ;;
                         pubkey <- lift (call_parser parse_openssh_pubkey line) ;;
                         ret (Some pubkey))
                        (fun _ => ret None) ;;       (* except Exception *)
            match parsed with
            | None => ret (Continue result)          (* continue *)
            | Some pubkey => ret (Continue (set_add pubkey result))
            end)
         [] ;;
  match c with
  | Continue result | Break result => ret result
  end.

Definition deregister (fuel : nat) (self : StashKeyStore) (identity : Identity)
  (public_key : PublicKey) : M unit :=
  for_request_list fuel self identity
    (fun key _ =>
       line <- lift (getitem key "text") ;;
       pubkey <- lift (call_parser parse_openssh_pubkey line) ;;
       if key_eqb pubkey public_key
       then
         id <- lift (getitem key "id") ;;
         url <- lift (call_str DEREGISTER_URL) ;;      (* DEREGISTER_URL(self, id) *)
         response <- ks_request self identity DELETE url NoData ;;
         if negb (code response =? 204) then raise AssertionError
         else ret (Break tt)
       else ret (Continue tt))
    tt ;;;
  ret tt.

End Stash.
End Stash.

(** ** Predicates of the specification *)

Section Specification.
Context {R : Remote} {K : KeystoreModule}.


(** The callback carries a [code], and a [state] equal to the nonce. *)
Definition callback_ok (nonce : string) (args : list (string * string))
  (code : string) : Prop :=
  lookup "code" args = Some code /\ lookup "state" args = Some nonce.

(** The content types that the token exchange accepts. *)
Definition supported (mime : string) : bool :=
  (mime =? "application/x-www-form-urlencoded")%string
  || (mime =? "application/json")%string.

(** The handshake up to the construction of the [Identity]: the callback
    is accepted, the exchange yields [token_data] with an [access_token],
    and the profile request yields a [login]. *)
Definition identified (self : GitHub.GitHubOrganization)
  (nonce redirect : string) (args : list (string * string))
  (s : net) (identity : Identity) (s2 : net) : Prop :=
  exists code token_data token user_data login s1,
    callback_ok nonce args code /\
    GitHub.exchange self code redirect s = (Ret token_data, s1) /\
    getitem token_data "access_token" = Ret token /\
    GitHub.request (inr token) GitHub.USER_URL GET NoData s1
    = (Ret user_data, s2) /\
    getitem user_data "login" = Ret login /\
    identity = mkIdentity GitHubOrganizationClass login token.

(** The three ways in which [authenticate] ends in
    [AuthenticationError]. *)
Inductive rejection (self : GitHub.GitHubOrganization)
  (nonce redirect : string) (args : list (string * string))
  (s s' : net) : Prop :=
| bad_callback :
    (forall code, ~ callback_ok nonce args code) ->
    s' = s ->
    rejection self nonce redirect args s s'
| unsupported_content_type (code : string) (r : response) :
    callback_ok nonce args code ->
    urlopen (GitHub.access_token_request self code redirect) s = (Ret r, s') ->
    supported (mimetype r) = false ->
    rejection self nonce redirect args s s'
| not_authorized (identity : Identity) (s2 : net) :
    identified self nonce redirect args s identity s2 ->
    GitHub.authorize self identity s2 = (Ret false, s') ->
    rejection self nonce redirect args s s'.

(** The key of a stored entry, read from [field] with [parse]; [None] when
    reading or parsing raises. *)
Definition entry_key (field : string) (parse : string -> option PublicKey)
  (entry : value) : option PublicKey :=
  match getitem entry field with
  | Ret line =>
      match call_parser parse line with
      | Ret k => Some k
      | _ => None
      end
  | _ => None
  end.

(** Add the key of an entry to a set, skipping an entry without key. *)
Definition add_entry (field : string) (parse : string -> option PublicKey)
  (result : list PublicKey) (entry : value) : list PublicKey :=
  match entry_key field parse entry with
  | Some k => set_add k result
  | None => result
  end.

(** The set of the keys of the entries that have one. *)
Definition keys_of (field : string) (parse : string -> option PublicKey)
  (entries : list value) : list PublicKey :=
  fold_left (add_entry field parse) entries [].

(** One page of the listing as the provider reports it: its entries,
    [isLastPage], and [nextPageStart] (read only when the page is not the
    last one). *)
Record page : Type := mkPage {
  page_values : list value;
  page_last : bool;
  page_next : value
}.

(** The answer [r] is a successful listing response that reports [p]. *)
Definition reports (r : response) (p : page) : Prop :=
  code r = 200 /\
  exists payload values last,
    json r = Some payload /\
    getitem payload "values" = Ret values /\
    py_iter values = Ret (page_values p) /\
    getitem payload "isLastPage" = Ret last /\
    truthy last = page_last p /\
    (page_last p = false -> getitem payload "nextPageStart" = Ret (page_next p)).

(** The request for the page at cursor [start], signed for [owner]. *)
Definition list_request (self : Stash.StashKeyStore)
  (owner : value * value) (start : value) : Request :=
  mkRequest GET
    ((self.(Stash.team).(Stash.server_url) ++ Stash.LIST_URL) ++ py_str start)
    (OAuth1 self.(Stash.team).(Stash.consumer_key)
       self.(Stash.team).(Stash.rsa_key) (Some owner))
    NoData.

(** The provider, asked for the page at [start] and then for each page at
    the [nextPageStart] of the page before, reports [pages]; only the last
    of them has [isLastPage]. *)
Inductive listing (self : Stash.StashKeyStore) (owner : value * value)
  : world -> value -> list page -> world -> Prop :=
| listing_last w start r w' p :
    serve w (list_request self owner start) = (Answer r, w') ->
    reports r p ->
    page_last p = true ->
    listing self owner w start [p] w'
| listing_more w start r w1 p ps w' :
    serve w (list_request self owner start) = (Answer r, w1) ->
    reports r p ->
    page_last p = false ->
    listing self owner w1 (page_next p) ps w' ->
    listing self owner w start (p :: ps) w'.

(** The cursors of the requests for [pages]: [start], then the
    [nextPageStart] of every page but the last. *)
Fixpoint cursors (start : value) (pages : list page) : list value :=
  match pages with
  | [] => []
  | p :: rest => start :: cursors (page_next p) rest
  end.

(** All the entries of [pages], in order. *)
Definition entries_of (pages : list page) : list value :=
  concat (map page_values pages).

(** A loop body that sends nothing and neither raises nor breaks. *)
Definition pure_body {B : Type} (body : value -> B -> M (control B))
  (f : B -> value -> B) : Prop :=
  forall key acc s, body key acc s = (Ret (Continue (f acc key)), s).

(** The identity's team class does not cover the store's team, or its
    identifier is a string that does not start with the team's server
    URL. *)
Definition incompatible (self : Stash.StashKeyStore) (identity : Identity)
  : Prop :=
  issubclass StashTeamClass identity.(team_type) = false
  \/ exists id, identity.(identifier) = VStr id
                /\ ~ exists rest,
                       id = self.(Stash.team).(Stash.server_url) ++ rest.

(** Every request that [m] sends satisfies [P]. *)
Definition sends_only (P : Request -> Prop) {A : Type} (m : M A) : Prop :=
  forall s, exists added,
    net_log (snd (m s)) = (net_log s ++ added)%list /\ Forall P added.

(** The stored entry parses to a key equal to [public_key]. *)
Definition matches (public_key : PublicKey) (entry : value) : bool :=
  match entry_key "key" parse_line entry with
  | Some k => key_eqb k public_key
  | None => false
  end.

(** The DELETE of one stored entry by its id. *)
Definition delete_entry (identity : Identity) (entry : value) : M unit :=
  url <- lift (GitHub.DEREGISTER_URL entry) ;;
  GitHub.request (inl identity) url DELETE NoData ;;;
  ret tt.

End Specification.

(** ** The requests of the handshakes and further predicates *)

Section Requests.
Context {R : Remote} {K : KeystoreModule}.

(** The request of [StashTeam.request_authentication] for a request
    token: signed with the consumer key only. *)
Definition request_token_request (self : Stash.StashTeam) : Request :=
  mkRequest POST (self.(Stash.server_url) ++ Stash.REQUEST_TOKEN_URL)
    (OAuth1 self.(Stash.consumer_key) self.(Stash.rsa_key) None) NoData.

(** The exchange request of [StashTeam.authenticate], signed for the
    request token. *)
Definition stash_exchange_request (self : Stash.StashTeam)
  (owner : value * value) : Request :=
  mkRequest POST (self.(Stash.server_url) ++ Stash.ACCESS_TOKEN_URL)
    (OAuth1 self.(Stash.consumer_key) self.(Stash.rsa_key) (Some owner))
    NoData.

(** The profile request of [StashTeam.authenticate], signed for the access
    token. *)
Definition whoami_request (self : Stash.StashTeam) (token secret : string)
  : Request :=
  mkRequest GET (self.(Stash.server_url) ++ Stash.USER_URL)
    (OAuth1 self.(Stash.consumer_key) self.(Stash.rsa_key)
       (Some (VStr token, VStr secret)))
    NoData.

(** The three requests of a GitHub handshake that goes through. *)
Definition github_handshake (self : GitHub.GitHubOrganization)
  (code redirect token : string) : list Request :=
  [GitHub.access_token_request self code redirect;
   mkRequest GET GitHub.USER_URL (TokenAuth token) NoData;
   mkRequest GET GitHub.ORGS_LIST_URL (TokenAuth token) NoData].

(** The first entry with a [login] equal to [org] comes after entries that
    all have another [login]. *)
Definition lists_org (org : string) (items : list value) : Prop :=
  exists before o after,
    items = (before ++ o :: after)%list /\
    getitem o "login" = Ret (VStr org) /\
    Forall (fun x => exists l, getitem x "login" = Ret l
                               /\ value_eq_str l org = false) before.

(** No two keys of the list are equal. *)
Definition distinct_keys (keys : list PublicKey) : Prop :=
  ForallOrdPairs (fun a b => key_eqb a b = false) keys.

(** The string ends with a slash. *)
Fixpoint ends_with_slash (s : string) : bool :=
  match s with
  | EmptyString => false
  | String c EmptyString => Ascii.eqb c "/"
  | String _ s' => ends_with_slash s'
  end.

(** [n] slashes. *)
Fixpoint slashes (n : nat) : string :=
  match n with
  | O => EmptyString
  | S n' => String "/" (slashes n')
  end.

(** The request that [GitHubKeyStore.register] sends. *)
Definition github_register_request (token : string) (public_key : PublicKey)
  : Request :=
  mkRequest POST GitHub.LIST_URL (TokenAuth token)
    (JsonData (VDict [("title", VStr public_key.(comment));
                      ("key", VStr (PublicKey_str public_key))])).

(** A request for a page of the listing, signed for the pair that the
    identity's access token unpacks to. *)
Definition signed_list_request (self : Stash.StashKeyStore)
  (identity : Identity) (rq : Request) : Prop :=
  exists owner start,
    unpack2 identity.(access_token) = Ret owner /\
    rq = list_request self owner start.

End Requests.

(** ** Sample providers and keys for the concrete scenarios *)

(** A provider without state whose answer depends on the request only. *)
Definition table_remote (answer : Request -> reply) : Remote :=
  {| world := unit; serve := fun w rq => (answer rq, w) |}.

(** The part of [s] before its first space, and the part after it. *)
Fixpoint split_space (s : string) : string * option string :=
  match s with
  | EmptyString => (EmptyString, None)
  | String c s' =>
      if Ascii.eqb c " " then (EmptyString, Some s')
      else let (a, b) := split_space s' in (String c a, b)
  end.

(** A sample parser: a line is [algorithm material] or
    [algorithm material comment]; anything else does not parse. *)
Definition parse_sample (line : string) : option PublicKey :=
  match split_space line with
  | (alg, Some rest) =>
      match split_space rest with
      | (EmptyString, _) => None
      | (mat, Some c) => Some (mkPublicKey alg mat c)
      | (mat, None) => Some (mkPublicKey alg mat "")
      end
  | (_, None) => None
  end.

Definition format_sample (k : PublicKey) : string :=
  algorithm k ++ " " ++ material k.

Definition sample_keys : KeystoreModule :=
  {| parse_line := parse_sample;
     parse_openssh_pubkey := parse_sample;
     PublicKey_str := fun k => format_sample k ++ " " ++ comment k;
     format_openssh_pubkey := format_sample |}.

Definition json_response (status : Z) (v : value) : response :=
  mkResponse status "application/json" "" (Some v) [].

Definition form_response (status : Z) (mime : string)
  (fields : list (string * string)) : response :=
  mkResponse status mime "" None fields.

Definition text_response (status : Z) (body : string) : response :=
  mkResponse status "text/plain" body None [].

(** The provider in state [w], before any request. *)
Definition start_of (R : Remote) (w : @world R) : @net R := mkNet w [].

(** A provider that cannot be reached. *)
Definition unreachable : Remote := table_remote (fun _ => Unreachable).

(** The organization of the examples. *)
Definition spoqa : GitHub.GitHubOrganization :=
  GitHub.mkGitHubOrganization "client-id" "client-secret" "spoqa".

(** A GitHub where [alice] is a member of [spoqa]. *)
Definition github_with_alice : Remote :=
  table_remote (fun rq =>
    if (req_url rq =? GitHub.ACCESS_TOKEN_URL)%string then
      Answer (form_response 200 "application/x-www-form-urlencoded"
                [("access_token", "t0ken")])
    else if (req_url rq =? GitHub.USER_URL)%string then
      Answer (json_response 200 (VDict [("login", VStr "alice")]))
    else if (req_url rq =? GitHub.ORGS_LIST_URL)%string then
      Answer (json_response 200 (VList [VDict [("login", VStr "spoqa")]]))
    else Answer (json_response 404 VNone)).

(** A Bitbucket Server that answers the access-token request with a
    [text/plain] body of form fields, and knows the caller as [alice]. *)
Definition stash_with_alice : Remote :=
  table_remote (fun rq =>
    if (req_url rq
        =? "https://stash.example.com/plugins/servlet/oauth/access-token")%string
    then Answer (form_response 200 "text/plain"
                   [("oauth_token", "access"); ("oauth_token_secret", "s3cret")])
    else if (req_url rq
             =? "https://stash.example.com/plugins/servlet/applinks/whoami")%string
    then Answer (text_response 200 "alice")
    else Answer (text_response 404 "")).

(** The team of a Bitbucket Server, and the identity it gives [alice]. *)
Definition example_team : Stash.StashTeam :=
  Stash.StashTeam_init "https://stash.example.com/" "geofront" "RSA PRIVATE KEY".

Definition alice : Identity :=
  mkIdentity StashTeamClass (VStr "https://stash.example.com/users/alice")
    (VTuple [VStr "access"; VStr "s3cret"]).

(** A stored key and a page of the listing, as Bitbucket Server sends
    them. *)
Definition key_entry (id : Z) (line : string) : value :=
  VDict [("id", VInt id); ("text", VStr line); ("label", VStr "")].

Definition page_payload (values : list value) (next : option Z) : value :=
  VDict ([("size", VInt (Z.of_nat (List.length values)));
          ("isLastPage", VBool (match next with Some _ => false | None => true end));
          ("values", VList values)]
         ++ match next with
            | Some n => [("nextPageStart", VInt n)]
            | None => []
            end)%list.

Definition keys_url : string := "https://stash.example.com/rest/ssh/1.0/keys".

Definition entry1 := key_entry 11 "ssh-rsa AAAA1 alice@laptop".
Definition entry2 := key_entry 12 "ssh-rsa AAAA2 alice@desk".
Definition entry3 := key_entry 13 "ssh-ed25519 AAAA3".
Definition entry4 := key_entry 14 "ssh-rsa AAAA4 alice@phone".
Definition entry5 := key_entry 15 "ssh-dss AAAA5 old".

(** Five keys on file, reported in pages of sizes 2, 2 and 1. *)
Definition stash_with_five_keys : Remote :=
  table_remote (fun rq =>
    if negb (method_eqb (req_method rq) GET) then Answer (text_response 405 "")
    else if (req_url rq =? keys_url ++ "?start=0")%string then
      Answer (json_response 200 (page_payload [entry1; entry2] (Some 2)))
    else if (req_url rq =? keys_url ++ "?start=2")%string then
      Answer (json_response 200 (page_payload [entry3; entry4] (Some 4)))
    else if (req_url rq =? keys_url ++ "?start=4")%string then
      Answer (json_response 200 (page_payload [entry5] None))
    else Answer (text_response 404 "")).

Definition example_store : Stash.StashKeyStore :=
  Stash.mkStashKeyStore example_team.

Definition alice_owner : value * value := (VStr "access", VStr "s3cret").

Definition five_pages : list page :=
  [mkPage [entry1; entry2] false (VInt 2);
   mkPage [entry3; entry4] false (VInt 4);
   mkPage [entry5] true VNone].

Definition five_keys : list PublicKey :=
  [mkPublicKey "ssh-rsa" "AAAA1" "alice@laptop";
   mkPublicKey "ssh-rsa" "AAAA2" "alice@desk";
   mkPublicKey "ssh-ed25519" "AAAA3" "";
   mkPublicKey "ssh-rsa" "AAAA4" "alice@phone";
   mkPublicKey "ssh-dss" "AAAA5" "old"].

(** An identity made by a GitHub organization. *)
Definition octocat : Identity :=
  mkIdentity GitHubOrganizationClass (VStr "octocat") (VStr "t0ken").

(** Three keys on file at GitHub, the second one damaged. *)
Definition github_keys : value :=
  VList [VDict [("id", VInt 1); ("key", VStr "ssh-rsa AAAA1 alice@laptop")];
         VDict [("id", VInt 2); ("key", VStr "garbage")];
         VDict [("id", VInt 3); ("key", VStr "ssh-ed25519 AAAA3")]].

(** A GitHub that lists [github_keys], answers 422 to the registration
    of a key, and 204 to a DELETE. *)
Definition github_with_keys : Remote :=
  table_remote (fun rq =>
    if (req_url rq =? GitHub.LIST_URL)%string then
      match req_method rq with
      | GET => Answer (json_response 200 github_keys)
      | POST =>
          Answer (json_response 422
                    (VDict [("message", VStr "Validation Failed");
                            ("errors",
                             VList [VDict [("resource", VStr "PublicKey");
                                           ("field", VStr "key");
                                           ("message",
                                            VStr "key is already in use")]])]))
      | DELETE => Answer (text_response 405 "")
      end
    else if method_eqb (req_method rq) DELETE then Answer (text_response 204 "")
    else Answer (json_response 404 VNone)).

(** A Bitbucket Server with three keys on one page, the second one
    damaged; it answers 409 to the registration of a key. *)
Definition stash_with_damaged_key : Remote :=
  table_remote (fun rq =>
    match req_method rq with
    | GET =>
        if (req_url rq =? keys_url ++ "?start=0")%string then
          Answer (json_response 200
                    (page_payload [entry1; key_entry 12 "garbage"; entry3]
                       None))
        else Answer (text_response 404 "")
    | POST =>
        Answer (json_response 409
                  (VDict [("errors",
                           VList [VDict [("message",
                                          VStr "This SSH key is already added")]])]))
    | DELETE => Answer (text_response 204 "")
    end).

(** A Bitbucket Server that hands out a request token, exchanges it, and
    knows the caller as [alice]. *)
Definition stash_handshake : Remote :=
  table_remote (fun rq =>
    if (req_url rq
        =? "https://stash.example.com/plugins/servlet/oauth/request-token")%string
    then Answer (form_response 200 "text/plain"
                   [("oauth_token", "request");
                    ("oauth_token_secret", "request-secret")])
    else if (req_url rq
        =? "https://stash.example.com/plugins/servlet/oauth/access-token")%string
    then Answer (form_response 200 "text/plain"
                   [("oauth_token", "access"); ("oauth_token_secret", "s3cret")])
    else if (req_url rq
             =? "https://stash.example.com/plugins/servlet/applinks/whoami")%string
    then Answer (text_response 200 "alice")
    else Answer (text_response 404 "")).

(** A Bitbucket Server whose listing never ends: every page has one key
    and is followed by another. *)
Definition stash_without_end : Remote :=
  table_remote (fun rq =>
    Answer (json_response 200 (page_payload [entry1] (Some 1)))).

(** A Bitbucket Server that answers every request with 204 and no body. *)
Definition stash_no_content : Remote :=
  table_remote (fun rq => Answer (text_response 204 "")).

(** A GitHub whose token exchange answers with an error payload. *)
Definition github_bad_code : Remote :=
  table_remote (fun rq =>
    Answer (json_response 200
              (VDict [("error", VStr "bad_verification_code")]))).

(** A GitHub with two well-formed keys on file, the second one stored
    twice under different titles. *)
Definition github_two_keys : Remote :=
  table_remote (fun rq =>
    if method_eqb (req_method rq) DELETE then Answer (text_response 204 "")
    else
      Answer (json_response 200
                (VList [VDict [("id", VInt 1);
                               ("key", VStr "ssh-rsa AAAA1 alice@laptop")];
                        VDict [("id", VInt 2);
                               ("key", VStr "ssh-ed25519 AAAA3 first")];
                        VDict [("id", VInt 3);
                               ("key", VStr "ssh-ed25519 AAAA3 second")]]))).


(** The listing of [github_two_keys]. *)
Definition two_keys_items : list value :=
  [VDict [("id", VInt 1); ("key", VStr "ssh-rsa AAAA1 alice@laptop")];
   VDict [("id", VInt 2); ("key", VStr "ssh-ed25519 AAAA3 first")];
   VDict [("id", VInt 3); ("key", VStr "ssh-ed25519 AAAA3 second")]].

(** ** Facts about strings and values *)

Lemma prefix_app (p r : string) : String.prefix p (p ++ r) = true.
Proof.
  induction p as [|c p IH]; simpl.
  - now destruct r.
  - destruct (ascii_dec c c) as [_|n]; [exact IH | now destruct n].
Qed.

Lemma prefix_inv (p s : string) :
  String.prefix p s = true -> exists r, s = p ++ r.
Proof.
  revert s; induction p as [|c p IH]; intros s H.
  - now exists s.
  - destruct s as [|d s]; simpl in H; [discriminate|].
    destruct (ascii_dec c d) as [->|]; [|discriminate].
    destruct (IH _ H) as [r ->]. now exists r.
Qed.

Lemma string_app_assoc (a b c : string) : (a ++ b) ++ c = a ++ (b ++ c).
Proof. induction a as [|x a IH]; simpl; [reflexivity | now rewrite IH]. Qed.

Lemma getitem_total (v : value) (k : string) : getitem v k <> OutOfFuel.
Proof.
  destruct v; simpl; try discriminate. now destruct (lookup k entries).
Qed.

Lemma call_parser_total (parse : string -> option PublicKey) (v : value) :
  call_parser parse v <> OutOfFuel.
Proof. destruct v; simpl; try discriminate. now destruct (parse s). Qed.

Lemma key_eqb_trans (a b c : PublicKey) :
  key_eqb a b = true -> key_eqb b c = true -> key_eqb a c = true.
Proof.
  unfold key_eqb. rewrite !andb_true_iff, !String.eqb_eq.
  intros [-> ->] [-> ->]. now split.
Qed.

(** Comments never take part in the comparison of keys. *)
Lemma key_eqb_comment (a : PublicKey) (c : string) :
  key_eqb (mkPublicKey (algorithm a) (material a) c) a = true.
Proof. unfold key_eqb; simpl. now rewrite !String.eqb_refl. Qed.


(** ** Unfolding the monad *)

Ltac unmonad :=
  unfold bind, ret, raise, lift, try_except, out_of_fuel in *; simpl in *.

Ltac case_match :=
  match goal with
  | |- context [match ?x with _ => _ end] => destruct x eqn:?
  | H : context [match ?x with _ => _ end] |- _ => destruct x eqn:?
  end.

Section Monad.
Context {R : Remote}.

Lemma urlopen_log (rq : Request) (s : net) :
  net_log (snd (urlopen rq s)) = (net_log s ++ [rq])%list.
Proof.
  unfold urlopen. destruct (serve (net_world s) rq) as [[r|] w]; simpl;
    [destruct (_ && _)|]; reflexivity.
Qed.

(** [urlopen] raises nothing but [IOError]s. *)
Lemma urlopen_raises (rq : Request) (s s' : net) (e : exn) :
  urlopen rq s = (Raise e, s') -> is_IOError e = true.
Proof.
  unfold urlopen. destruct (serve (net_world s) rq) as [[r|] w]; simpl;
    [destruct (_ && _)|]; intro H; inversion H; reflexivity.
Qed.

End Monad.

(** ** StashTeam: authorize and authenticate *)

Section StashTeamProperties.
Context {R : Remote}.

(** C8: [StashTeam.authorize] sends no request and leaves the provider as
    it was, its answer does not depend on the provider, and it returns
    [True] exactly when [identity.team_type] is a subclass of [StashTeam]
    and [identity.identifier] is a string that starts with the team's
    [server_url]. *)
Theorem stash_authorize_structural
  (self : Stash.StashTeam) (identity : Identity) (s : net) :
  snd (Stash.authorize self identity s) = s /\
  (forall s', fst (Stash.authorize self identity s')
              = fst (Stash.authorize self identity s)) /\
  (fst (Stash.authorize self identity s) = Ret true <->
   issubclass identity.(team_type) StashTeamClass = true /\
   exists rest,
     identity.(identifier) = VStr (self.(Stash.server_url) ++ rest)).
Proof.
  unfold Stash.authorize.
  destruct (issubclass (team_type identity) StashTeamClass) eqn:Hsub; simpl.
  - unfold lift; simpl. split; [reflexivity|]. split; [reflexivity|]. split.
    + intros H. split; [reflexivity|].
      destruct (identifier identity); simpl in H; try discriminate.
      inversion H as [Hp]. apply prefix_inv in Hp. destruct Hp as [r ->].
      now exists r.
    + intros [_ [r ->]]. simpl. now rewrite prefix_app.
  - unfold ret; simpl. split; [reflexivity|]. split; [reflexivity|]. split.
    + discriminate.
    + now intros [? _].
Qed.

Lemma stash_authenticate_inv (self : Stash.StashTeam) (state : value)
  (redirect : string) (args : list (string * string)) (s s' : net)
  (identity : Identity) :
  Stash.authenticate self state redirect args s = (Ret identity, s') ->
  exists request_token request_secret access secret whoami,
    unpack2 state = Ret (request_token, request_secret) /\
    opt_str_eqb (lookup "oauth_token" args) request_token = true /\
    identity = mkIdentity StashTeamClass
                 (VStr (self.(Stash.server_url) ++ "/users/" ++ whoami))
                 (VTuple [VStr access; VStr secret]).
Proof.
  unfold Stash.authenticate. intro H. unmonad.
  destruct (unpack2 state) as [[tok sec]|e|] eqn:Hu;
    [|destruct e; discriminate|discriminate].
  destruct (opt_str_eqb (lookup "oauth_token" args) tok) eqn:Heq;
    simpl in H; [|discriminate].
  repeat (case_match; try discriminate).
  unfold args_getitem in *. repeat (case_match; try discriminate).
  repeat match goal with
         | E : (_, _) = (_, _) |- _ => inversion E; clear E; subst
         | E : Ret _ = Ret _ |- _ => inversion E; clear E; subst
         end.
  rewrite string_app_assoc.
  do 5 eexists. split; [reflexivity|]. split; [eassumption|]. reflexivity.
Qed.

(** C10: an [Identity] returned by [StashTeam.authenticate] has the
    team's class as [team_type] and an identifier made of the team's
    [server_url], ["/users/"] and the name the provider answered; so
    [authorize] of the same team returns [True] for it, whatever the
    provider does. *)
Theorem stash_authenticate_then_authorize
  (self : Stash.StashTeam) (state : value) (redirect : string)
  (args : list (string * string)) (s s' : net) (identity : Identity) :
  Stash.authenticate self state redirect args s = (Ret identity, s') ->
  identity.(team_type) = StashTeamClass /\
  (exists whoami,
      identity.(identifier)
      = VStr (self.(Stash.server_url) ++ "/users/" ++ whoami)) /\
  forall s'', Stash.authorize self identity s'' = (Ret true, s'').
Proof.
  intro H. apply stash_authenticate_inv in H.
  destruct H as (rt & rs & a & sec & whoami & _ & _ & ->). simpl.
  split; [reflexivity|]. split; [now exists whoami|].
  intro s''. unfold Stash.authorize; simpl. unfold lift; simpl.
  now rewrite prefix_app.
Qed.

End StashTeamProperties.

(** ** GitHubOrganization: authorize *)

Section GitHubAuthorize.
Context {R : Remote}.


(** [request] sends one request when the token is a [str], none
    otherwise. *)
Lemma github_request_state (t : Identity + value) (url : string)
  (m : http_method) (d : payload) (s : net) :
  snd (GitHub.request t url m d s)
  = match (match t with inl i => i.(access_token) | inr v => v end) with
    | VStr tok => snd (urlopen (mkRequest m url (TokenAuth tok) d) s)
    | _ => s
    end.
Proof.
  unfold GitHub.request.
  destruct (match t with inl i => access_token i | inr v => v end);
    try reflexivity.
  unfold bind.
  destruct (urlopen _ s) as [[r|e|] s1]; simpl; try reflexivity.
  destruct (negb _); [reflexivity|].
  destruct (method_eqb m DELETE); [reflexivity|].
  now destruct (json r).
Qed.





End GitHubAuthorize.




(** ** GitHubOrganization: authenticate *)

Section GitHubAuthenticate.
Context {R : Remote}.

Lemma check_callback_spec (nonce : string) (args : list (string * string))
  (s : net) :
  GitHub.check_callback nonce args s
  = match lookup "code" args, lookup "state" args with
    | Some c, Some st =>
        if (st =? nonce)%string then (Ret c, s)
        else (Raise (AuthenticationError ""), s)
    | _, _ => (Raise (AuthenticationError ""), s)
    end.
Proof.
  unfold GitHub.check_callback, args_getitem. unmonad.
  destruct (lookup "code" args); [|reflexivity].
  destruct (lookup "state" args) as [st|]; [|reflexivity].
  now destruct (st =? nonce)%string.
Qed.

Lemma check_callback_ok (nonce : string) (args : list (string * string))
  (code : string) (s : net) :
  callback_ok nonce args code ->
  GitHub.check_callback nonce args s = (Ret code, s).
Proof.
  intros [Hc Hs]. rewrite check_callback_spec, Hc, Hs.
  now rewrite String.eqb_refl.
Qed.

Lemma check_callback_bad (nonce : string) (args : list (string * string))
  (s : net) :
  (forall code, ~ callback_ok nonce args code) ->
  GitHub.check_callback nonce args s = (Raise (AuthenticationError ""), s).
Proof.
  intro H. rewrite check_callback_spec.
  destruct (lookup "code" args) as [c|] eqn:Hc; [|reflexivity].
  destruct (lookup "state" args) as [st|] eqn:Hs; [|reflexivity].
  destruct (st =? nonce)%string eqn:He; [|reflexivity].
  apply String.eqb_eq in He. subst st. now elim (H c).
Qed.

Lemma check_callback_cases (nonce : string) (args : list (string * string))
  (s : net) :
  (exists code, callback_ok nonce args code
                /\ GitHub.check_callback nonce args s = (Ret code, s))
  \/ ((forall code, ~ callback_ok nonce args code)
      /\ GitHub.check_callback nonce args s
         = (Raise (AuthenticationError ""), s)).
Proof.
  rewrite check_callback_spec. unfold callback_ok.
  destruct (lookup "code" args) as [c|] eqn:Hc.
  - destruct (lookup "state" args) as [st|] eqn:Hs.
    + destruct (st =? nonce)%string eqn:He.
      * apply String.eqb_eq in He. subst. left. now exists c.
      * apply String.eqb_neq in He. right. split; [|reflexivity].
        intros code [_ H]. congruence.
    + right. split; [|reflexivity]. intros code [_ H]. discriminate.
  - right. split; [|reflexivity]. intros code [H _]. discriminate.
Qed.

(** What the token exchange makes of the provider's answer. *)
Lemma exchange_spec (self : GitHub.GitHubOrganization) (code redirect : string)
  (s : net) :
  GitHub.exchange self code redirect s
  = match urlopen (GitHub.access_token_request self code redirect) s with
    | (Ret r, s1) =>
        if (mimetype r =? "application/x-www-form-urlencoded")%string
        then (Ret (VDict (map (fun kv => (fst kv, VStr (snd kv))) (form r))), s1)
        else if (mimetype r =? "application/json")%string
        then match json r with
             | Some v => (Ret v, s1)
             | None => (Raise ValueError, s1)
             end
        else (Raise (AuthenticationError
                       (GitHub.ACCESS_TOKEN_URL
                          ++ " sent unsupported content type: "
                          ++ mimetype r)), s1)
    | (Raise e, s1) => (Raise e, s1)
    | (OutOfFuel, s1) => (OutOfFuel, s1)
    end.
Proof.
  unfold GitHub.exchange, bind.
  destruct (urlopen _ s) as [[r|e|] s1]; try reflexivity.
  destruct (mimetype r =? _)%string; [reflexivity|].
  destruct (mimetype r =? _)%string; [|reflexivity].
  now destruct (json r).
Qed.

Lemma exchange_unsupported (self : GitHub.GitHubOrganization)
  (code redirect : string) (s s1 : net) (r : response) :
  urlopen (GitHub.access_token_request self code redirect) s = (Ret r, s1) ->
  supported (mimetype r) = false ->
  exists msg,
    GitHub.exchange self code redirect s = (Raise (AuthenticationError msg), s1).
Proof.
  intros Hopen Hsup. rewrite exchange_spec, Hopen.
  unfold supported in Hsup. apply orb_false_iff in Hsup.
  destruct Hsup as [-> ->]. eauto.
Qed.

Lemma exchange_auth_error_inv (self : GitHub.GitHubOrganization)
  (code redirect : string) (s s1 : net) (msg : string) :
  GitHub.exchange self code redirect s = (Raise (AuthenticationError msg), s1) ->
  exists r,
    urlopen (GitHub.access_token_request self code redirect) s = (Ret r, s1)
    /\ supported (mimetype r) = false.
Proof.
  rewrite exchange_spec.
  destruct (urlopen _ s) as [[r|e|] s2] eqn:Hopen.
  - unfold supported.
    destruct (mimetype r =? "application/x-www-form-urlencoded")%string eqn:Hf;
      [discriminate|].
    destruct (mimetype r =? "application/json")%string eqn:Hj.
    + destruct (json r); discriminate.
    + intro H. inversion H; subst. exists r. now rewrite Hf, Hj.
  - intro H. inversion H; subst. apply urlopen_raises in Hopen. discriminate.
  - discriminate.
Qed.

Lemma getitem_not_auth (v : value) (k : string) (e : exn) :
  getitem v k = Raise e -> is_AuthenticationError e = false.
Proof.
  destruct v; simpl; try (intro H; now inversion H).
  destruct (lookup k entries); intro H; now inversion H.
Qed.

Lemma py_iter_not_auth (v : value) (e : exn) :
  py_iter v = Raise e -> is_AuthenticationError e = false.
Proof. destruct v; simpl; intro H; now inversion H. Qed.

Lemma any_login_not_auth (org : string) (os : list value) (e : exn) :
  GitHub.any_login org os = Raise e -> is_AuthenticationError e = false.
Proof.
  induction os as [|o os IH]; simpl; [discriminate|].
  destruct (getitem o "login") as [l|e'|] eqn:Hg.
  - destruct (value_eq_str l org); [discriminate | exact IH].
  - intro H. inversion H; subst. now apply getitem_not_auth in Hg.
  - discriminate.
Qed.

Lemma github_request_not_auth (t : Identity + value) (url : string)
  (m : http_method) (d : payload) (s s' : net) (e : exn) :
  GitHub.request t url m d s = (Raise e, s') ->
  is_AuthenticationError e = false.
Proof.
  unfold GitHub.request.
  destruct (match t with inl i => access_token i | inr v => v end);
    try (intro H; now inversion H).
  unfold bind. destruct (urlopen _ s) as [[r|e'|] s1] eqn:Hopen.
  - destruct (negb _); [intro H; now inversion H|].
    destruct (method_eqb m DELETE); [discriminate|].
    destruct (json r); [discriminate|]. intro H; now inversion H.
  - intro H. inversion H; subst. apply urlopen_raises in Hopen.
    now destruct e.
  - discriminate.
Qed.

Lemma github_authorize_not_auth (self : GitHub.GitHubOrganization)
  (identity : Identity) (s s' : net) (e : exn) :
  GitHub.authorize self identity s = (Raise e, s') ->
  is_AuthenticationError e = false.
Proof.
  unfold GitHub.authorize.
  destruct (issubclass _ _); simpl; [|discriminate].
  unfold bind, try_except.
  destruct (GitHub.request _ _ _ _ s) as [[v|e'|] s1] eqn:Hreq; simpl.
  - destruct (GitHub.is_error_mapping v); [discriminate|].
    unfold lift. destruct (py_iter v) as [os|e''|] eqn:Hit.
    + intro H. inversion H. now apply any_login_not_auth in H1.
    + intro H. inversion H; subst. now apply py_iter_not_auth in Hit.
    + discriminate.
  - destruct (is_IOError e') eqn:Hio; [discriminate|].
    intro H. inversion H; subst. now apply github_request_not_auth in Hreq.
  - discriminate.
Qed.

End GitHubAuthenticate.

Section GitHubAuthenticateOutcomes.
Context {R : Remote}.
Variable self : GitHub.GitHubOrganization.
Variables (nonce redirect : string) (args : list (string * string)).

Lemma github_authenticate_returns (s s' : net) (identity : Identity) :
  GitHub.authenticate self nonce redirect args s = (Ret identity, s') <->
  exists s2, identified self nonce redirect args s identity s2
             /\ GitHub.authorize self identity s2 = (Ret true, s').
Proof.
  unfold GitHub.authenticate, identified, bind, lift. split.
  - destruct (check_callback_cases nonce args s)
      as [(code & Hok & ->)|(_ & ->)]; [|discriminate].
    destruct (GitHub.exchange self code redirect s) as [[td|e|] s1] eqn:Hex;
      try discriminate.
    destruct (getitem td "access_token") as [token|e|] eqn:Htok;
      try discriminate.
    destruct (GitHub.request _ _ _ _ s1) as [[ud|e|] s2] eqn:Hreq;
      try discriminate.
    destruct (getitem ud "login") as [login|e|] eqn:Hlogin; try discriminate.
    destruct (GitHub.authorize self _ s2) as [[[|]|e|] s3] eqn:Hauth;
      try discriminate.
    unfold ret. intro H. inversion H; subst. exists s2. split; [|exact Hauth].
    exists code, td, token, ud, login, s1.
    split; [exact Hok|]. split; [exact Hex|]. split; [exact Htok|].
    split; [exact Hreq|]. split; [exact Hlogin|]. reflexivity.
  - intros (s2 & (code & td & token & ud & login & s1
                  & Hok & Hex & Htok & Hreq & Hlogin & ->) & Hauth).
    rewrite (check_callback_ok _ _ _ _ Hok), Hex, Htok, Hreq, Hlogin, Hauth.
    reflexivity.
Qed.

Lemma github_authenticate_rejects (s s' : net) :
  (exists msg,
      GitHub.authenticate self nonce redirect args s
      = (Raise (AuthenticationError msg), s')) <->
  rejection self nonce redirect args s s'.
Proof.
  unfold GitHub.authenticate, bind, lift. split.
  - intros [msg H].
    destruct (check_callback_cases nonce args s)
      as [(code & Hok & Hc)|(Hbad & Hc)]; rewrite Hc in H;
      [|inversion H; now apply bad_callback].
    destruct (GitHub.exchange self code redirect s) as [[td|e|] s1] eqn:Hex;
      [| inversion H; subst;
         destruct (exchange_auth_error_inv _ _ _ _ _ _ Hex) as (r & Ho & Hs);
         now apply unsupported_content_type with (code := code) (r := r)
       | discriminate].
    destruct (getitem td "access_token") as [token|e|] eqn:Htok;
      [| inversion H; subst; now apply getitem_not_auth in Htok
       | discriminate].
    destruct (GitHub.request _ _ _ _ s1) as [[ud|e|] s2] eqn:Hreq;
      [| inversion H; subst; now apply github_request_not_auth in Hreq
       | discriminate].
    destruct (getitem ud "login") as [login|e|] eqn:Hlogin;
      [| inversion H; subst; now apply getitem_not_auth in Hlogin
       | discriminate].
    destruct (GitHub.authorize self _ s2) as [[[|]|e|] s3] eqn:Hauth;
      [ discriminate
      |
      | inversion H; subst; now apply github_authorize_not_auth in Hauth
      | discriminate].
    assert (Hid : identified self nonce redirect args s
                    (mkIdentity GitHubOrganizationClass login token) s2).
    { exists code, td, token, ud, login, s1.
      split; [exact Hok|]. split; [exact Hex|]. split; [exact Htok|].
      split; [exact Hreq|]. split; [exact Hlogin|]. reflexivity. }
    unfold raise in H. inversion H; subst.
    exact (not_authorized _ _ _ _ _ _ _ s2 Hid Hauth).
  - intros [Hbad ->|code r Hok Hopen Hsup|identity s2 Hid Hauth].
    + rewrite (check_callback_bad _ _ _ Hbad). eauto.
    + rewrite (check_callback_ok _ _ _ _ Hok).
      destruct (exchange_unsupported _ _ _ _ _ _ Hopen Hsup) as [msg ->].
      eauto.
    + destruct Hid as (code & td & token & ud & login & s1
                       & Hok & Hex & Htok & Hreq & Hlogin & ->).
      rewrite (check_callback_ok _ _ _ _ Hok), Hex, Htok, Hreq, Hlogin, Hauth.
      unfold raise. eauto.
Qed.

(** A failure of the exchange request itself is raised as it is. *)
Lemma github_authenticate_exchange_failure (s s1 : net) (code : string)
  (e : exn) :
  callback_ok nonce args code ->
  urlopen (GitHub.access_token_request self code redirect) s = (Raise e, s1) ->
  GitHub.authenticate self nonce redirect args s = (Raise e, s1)
  /\ is_IOError e = true /\ is_AuthenticationError e = false.
Proof.
  intros Hok Hopen. unfold GitHub.authenticate, bind.
  rewrite (check_callback_ok _ _ _ _ Hok), exchange_spec, Hopen.
  apply urlopen_raises in Hopen. now destruct e.
Qed.

End GitHubAuthenticateOutcomes.

(** C1 (amended): [GitHubOrganization.authenticate] returns an [Identity]
    exactly when the callback has a [code] and a [state] equal to the
    nonce, the exchange yields an access token, the profile request yields
    a login, and [authorize] returns [True] for the [Identity] made of
    them.  It raises [AuthenticationError] exactly when the callback check
    fails, or the exchange answers with an unsupported content type, or
    [authorize] returns [False].  When the exchange request itself fails,
    the [IOError] of [urlopen] is raised unchanged, not an
    [AuthenticationError]. *)
Theorem github_authenticate_outcomes {R : Remote}
  (self : GitHub.GitHubOrganization) (nonce redirect : string)
  (args : list (string * string)) (s : net) :
  (forall identity s',
      GitHub.authenticate self nonce redirect args s = (Ret identity, s') <->
      exists s2, identified self nonce redirect args s identity s2
                 /\ GitHub.authorize self identity s2 = (Ret true, s')) /\
  (forall s',
      (exists msg, GitHub.authenticate self nonce redirect args s
                   = (Raise (AuthenticationError msg), s')) <->
      rejection self nonce redirect args s s') /\
  (forall code e s1,
      callback_ok nonce args code ->
      urlopen (GitHub.access_token_request self code redirect) s
      = (Raise e, s1) ->
      GitHub.authenticate self nonce redirect args s = (Raise e, s1)
      /\ is_IOError e = true /\ is_AuthenticationError e = false).
Proof.
  split; [|split].
  - intros identity s'. apply github_authenticate_returns.
  - intro s'. apply github_authenticate_rejects.
  - intros code e s1. apply github_authenticate_exchange_failure.
Qed.

(** C1, as stated, fails: the callback's state equals the nonce, the
    provider cannot be reached for the exchange, and [authenticate] raises
    [URLError], which is not an [AuthenticationError]. *)
Lemma github_authenticate_unreachable_exchange :
  let args := [("code", "c0de"); ("state", "nonce")] in
  let s := start_of unreachable tt in
  lookup "state" args = Some "nonce" /\
  fst (@GitHub.exchange unreachable spoqa "c0de" "https://geofront/cb" s)
  = Raise URLError /\
  fst (@GitHub.authenticate unreachable spoqa "nonce" "https://geofront/cb"
         args s)
  = Raise URLError /\
  is_AuthenticationError URLError = false.
Proof. repeat split. Qed.

Example github_authenticate_alice :
  fst (@GitHub.authenticate github_with_alice spoqa "nonce"
         "https://geofront/cb" [("code", "c0de"); ("state", "nonce")]
         (start_of github_with_alice tt))
  = Ret (mkIdentity GitHubOrganizationClass (VStr "alice") (VStr "t0ken")).
Proof. reflexivity. Qed.

(** ** Rejected callbacks in both backends *)

Section Rejections.
Context {R : Remote}.

Lemma stash_authenticate_token_mismatch (self : Stash.StashTeam)
  (state : value) (redirect : string) (args : list (string * string))
  (s : net) (token secret : value) :
  unpack2 state = Ret (token, secret) ->
  opt_str_eqb (lookup "oauth_token" args) token = false ->
  Stash.authenticate self state redirect args s
  = (Raise (AuthenticationError ""), s).
Proof.
  intros Hu Hne. unfold Stash.authenticate, bind, try_except, lift.
  rewrite Hu, Hne. reflexivity.
Qed.

Lemma stash_authenticate_bad_state (self : Stash.StashTeam)
  (state : value) (redirect : string) (args : list (string * string))
  (s : net) :
  unpack2 state = Raise ValueError ->
  Stash.authenticate self state redirect args s
  = (Raise (AuthenticationError ""), s).
Proof.
  intros Hu. unfold Stash.authenticate, bind, try_except, lift.
  rewrite Hu. reflexivity.
Qed.

(** [a, b = v] raises [ValueError] exactly for an iterable that does not
    have two items. *)
Lemma unpack2_ValueError (v : value) :
  unpack2 v = Raise ValueError <->
  exists items, py_iter v = Ret items /\ List.length items <> 2%nat.
Proof.
  unfold unpack2. split.
  - destruct (py_iter v) as [items|e|] eqn:Hit; try discriminate.
    + intro H. exists items. split; [reflexivity|].
      destruct items as [|a [|b [|c l]]]; simpl; try lia. discriminate.
    + intro H. inversion H; subst. now destruct v.
  - intros (items & -> & Hlen).
    destruct items as [|a [|b [|c l]]]; simpl in *; try reflexivity. lia.
Qed.

End Rejections.

(** C9 (amended): a callback that does not match is rejected with
    [AuthenticationError] before any request is sent: for GitHub a missing
    [code], a missing [state] or a [state] other than the nonce; for Stash
    an [oauth_token] that is not the request token of the continuation
    state, or a continuation state that is an iterable without exactly two
    items.  In [GitHubOrganization.authenticate] an exchange answer whose
    content type is neither form-encoded nor JSON also raises
    [AuthenticationError]. *)
Theorem authenticate_rejections {R : Remote} (s : net)
  (redirect : string) (args : list (string * string)) :
  (forall self nonce,
      lookup "code" args = None \/ lookup "state" args <> Some nonce ->
      GitHub.authenticate self nonce redirect args s
      = (Raise (AuthenticationError ""), s)) /\
  (forall self nonce code r s1,
      callback_ok nonce args code ->
      urlopen (GitHub.access_token_request self code redirect) s = (Ret r, s1) ->
      supported (mimetype r) = false ->
      exists msg, GitHub.authenticate self nonce redirect args s
                  = (Raise (AuthenticationError msg), s1)) /\
  (forall self state token secret,
      unpack2 state = Ret (token, secret) ->
      opt_str_eqb (lookup "oauth_token" args) token = false ->
      Stash.authenticate self state redirect args s
      = (Raise (AuthenticationError ""), s)) /\
  (forall self state items,
      py_iter state = Ret items -> List.length items <> 2%nat ->
      Stash.authenticate self state redirect args s
      = (Raise (AuthenticationError ""), s)).
Proof.
  repeat split.
  - intros self nonce H. unfold GitHub.authenticate, bind.
    rewrite check_callback_bad; [reflexivity|].
    intros code [Hc Hs]. destruct H as [H|H]; congruence.
  - intros self nonce code r s1 Hok Hopen Hsup.
    apply github_authenticate_rejects.
    now apply unsupported_content_type with (code := code) (r := r).
  - intros self state token secret. apply stash_authenticate_token_mismatch.
  - intros self state items Hit Hlen. apply stash_authenticate_bad_state.
    apply unpack2_ValueError. now exists items.
Qed.

Example stash_authenticate_alice :
  @Stash.authenticate stash_with_alice example_team
    (VTuple [VStr "request"; VStr "request-secret"])
    "https://geofront/cb" [("oauth_token", "request")]
    (start_of stash_with_alice tt)
  = (Ret alice,
     @mkNet stash_with_alice tt
       [mkRequest POST
          "https://stash.example.com/plugins/servlet/oauth/access-token"
          (OAuth1 "geofront" "RSA PRIVATE KEY"
             (Some (VStr "request", VStr "request-secret")))
          NoData;
        mkRequest GET
          "https://stash.example.com/plugins/servlet/applinks/whoami"
          (OAuth1 "geofront" "RSA PRIVATE KEY"
             (Some (VStr "access", VStr "s3cret")))
          NoData]).
Proof. reflexivity. Qed.

(** C9, as stated, fails for Stash: the access-token exchange answers with
    content type [text/plain], neither form-encoded nor JSON, and
    [StashTeam.authenticate] returns an [Identity]. *)
Lemma stash_authenticate_ignores_content_type :
  let s := start_of stash_with_alice tt in
  let exchange :=
    mkRequest POST
      "https://stash.example.com/plugins/servlet/oauth/access-token"
      (OAuth1 "geofront" "RSA PRIVATE KEY"
         (Some (VStr "request", VStr "request-secret")))
      NoData in
  (exists r s1, @urlopen stash_with_alice exchange s = (Ret r, s1)
                /\ supported (mimetype r) = false) /\
  fst (@Stash.authenticate stash_with_alice example_team
         (VTuple [VStr "request"; VStr "request-secret"])
         "https://geofront/cb" [("oauth_token", "request")] s)
  = Ret alice.
Proof.
  split; [|reflexivity].
  eexists _, _. split; reflexivity.
Qed.

(** C10 at a concrete input: [alice] logs in, then is authorized. *)
Lemma stash_authenticate_then_authorize_witness :
  alice.(team_type) = StashTeamClass /\
  (exists whoami,
      alice.(identifier)
      = VStr (example_team.(Stash.server_url) ++ "/users/" ++ whoami)) /\
  forall s'', @Stash.authorize stash_with_alice example_team alice s''
              = (Ret true, s'').
Proof.
  eapply (@stash_authenticate_then_authorize stash_with_alice example_team
            (VTuple [VStr "request"; VStr "request-secret"])
            "https://geofront/cb" [("oauth_token", "request")]
            (start_of stash_with_alice tt)).
  vm_compute. reflexivity.
Defined.

(** ** Sets of keys built from stored entries *)

Lemma key_in_app (k : PublicKey) (a b : list PublicKey) :
  key_in k (a ++ b) = key_in k a || key_in k b.
Proof. unfold key_in. apply existsb_app. Qed.

Lemma key_in_set_add (k k' : PublicKey) (s : list PublicKey) :
  key_in k (set_add k' s) = key_eqb k k' || key_in k s.
Proof.
  unfold set_add. destruct (key_in k' s) eqn:Hin.
  - destruct (key_eqb k k') eqn:He; [|reflexivity]. simpl.
    unfold key_in in *. apply existsb_exists in Hin.
    destruct Hin as (x & Hx & Hk). apply existsb_exists. exists x.
    split; [exact Hx|]. now apply (key_eqb_trans k k' x).
  - rewrite key_in_app. simpl. rewrite orb_false_r. apply orb_comm.
Qed.

Lemma key_in_fold (field : string) (parse : string -> option PublicKey)
  (k : PublicKey) (entries : list value) (acc : list PublicKey) :
  key_in k (fold_left (add_entry field parse) entries acc) = true <->
  key_in k acc = true
  \/ exists e k', In e entries /\ entry_key field parse e = Some k'
                  /\ key_eqb k k' = true.
Proof.
  revert acc. induction entries as [|e es IH]; intro acc; simpl.
  - split; [now left|]. intros [H|(e & k' & [] & _)]. exact H.
  - rewrite IH. unfold add_entry at 1.
    destruct (entry_key field parse e) as [k0|] eqn:He.
    + rewrite key_in_set_add, orb_true_iff. split.
      * intros [[H|H]|(e' & k' & Hin & Hk & Heq)].
        -- right. exists e, k0. auto.
        -- now left.
        -- right. exists e', k'. auto.
      * intros [H|(e' & k' & [<-|Hin] & Hk & Heq)].
        -- left. now right.
        -- left. left. congruence.
        -- right. exists e', k'. auto.
    + split.
      * intros [H|(e' & k' & Hin & Hk & Heq)]; [now left|].
        right. exists e', k'. auto.
      * intros [H|(e' & k' & [<-|Hin] & Hk & Heq)]; [now left|congruence|].
        right. exists e', k'. auto.
Qed.

(** A key is in [keys_of entries] exactly when it equals the key of one of
    the entries. *)
Lemma key_in_keys_of (field : string) (parse : string -> option PublicKey)
  (k : PublicKey) (entries : list value) :
  key_in k (keys_of field parse entries) = true <->
  exists e k', In e entries /\ entry_key field parse e = Some k'
               /\ key_eqb k k' = true.
Proof.
  unfold keys_of. rewrite key_in_fold. simpl. split; [|now right].
  now intros [H|H].
Qed.

(** ** StashKeyStore: the paginated listing *)

Section StashListing.
Context {R : Remote} {K : KeystoreModule}.
Variable self : Stash.StashKeyStore.
Variable identity : Identity.

Lemma for_each_pure {B : Type} (body : value -> B -> M (control B))
  (f : B -> value -> B) (items : list value) (acc : B) (s : net) :
  pure_body body f ->
  for_each items body acc s = (Ret (Continue (fold_left f items acc)), s).
Proof.
  intro Hb. revert acc. induction items as [|x items IH]; intro acc; simpl.
  - reflexivity.
  - unfold bind. rewrite Hb. apply IH.
Qed.

Lemma ks_request_list (owner : value * value) (start : value) (s : net) :
  unpack2 identity.(access_token) = Ret owner ->
  Stash.ks_request self identity GET
    ((self.(Stash.team).(Stash.server_url) ++ Stash.LIST_URL) ++ py_str start)
    NoData s
  = urlopen (list_request self owner start) s.
Proof.
  intro Hown. unfold Stash.ks_request, bind, lift. now rewrite Hown.
Qed.

Lemma urlopen_answer (rq : Request) (w w' : world) (log : list Request)
  (r : response) :
  serve w rq = (Answer r, w') ->
  (200 <=? code r) && (code r <? 300) = true ->
  urlopen rq (mkNet w log) = (Ret r, mkNet w' (log ++ [rq])).
Proof. intros Hs Hc. unfold urlopen; simpl. now rewrite Hs, Hc. Qed.

(** One turn of the [while True] loop on a page that the provider
    reports. *)
Lemma request_pages_step {B : Type} (body : value -> B -> M (control B))
  (f : B -> value -> B) (owner : value * value)
  (w : world) (start : value) (r : response) (w1 : world) (p : page)
  (fuel : nat) (acc : B) (log : list Request) :
  pure_body body f ->
  unpack2 identity.(access_token) = Ret owner ->
  serve w (list_request self owner start) = (Answer r, w1) ->
  reports r p ->
  Stash.request_pages (S fuel) self identity start body acc (mkNet w log)
  = let acc' := fold_left f (page_values p) acc in
    let s1 := mkNet w1 (log ++ [list_request self owner start]) in
    if page_last p then (Ret (Continue acc'), s1)
    else Stash.request_pages fuel self identity (page_next p) body acc' s1.
Proof.
  intros Hb Hown Hs (Hc & pl & vs & l & Hj & Hv & Hi & Hl & Ht & Hn).
  cbn [Stash.request_pages].
  unfold Stash.format01, Stash.format0, bind at 1, lift at 1.
  unfold bind at 1. rewrite (ks_request_list owner start _ Hown).
  rewrite (urlopen_answer _ _ _ _ _ Hs) by now rewrite Hc.
  rewrite Hc. cbn [Z.eqb Pos.eqb negb]. rewrite Hj.
  unfold bind, ret, lift.
  rewrite Hv, Hi, (for_each_pure body f _ _ _ Hb), Hl, Ht.
  destruct (page_last p); [reflexivity|]. now rewrite (Hn eq_refl).
Qed.

Lemma request_pages_listing {B : Type} (body : value -> B -> M (control B))
  (f : B -> value -> B) (owner : value * value)
  (w : world) (start : value) (pages : list page) (w' : world) :
  pure_body body f ->
  unpack2 identity.(access_token) = Ret owner ->
  listing self owner w start pages w' ->
  forall (fuel : nat) (acc : B) (log : list Request),
    (List.length pages <= fuel)%nat ->
    Stash.request_pages fuel self identity start body acc (mkNet w log)
    = (Ret (Continue (fold_left f (entries_of pages) acc)),
       mkNet w' (log ++ map (list_request self owner) (cursors start pages))).
Proof.
  intros Hb Hown Hl.
  induction Hl as [w start r w' p Hs Hrep Hlast
                  |w start r w1 p ps w' Hs Hrep Hlast Hrest IH];
    intros fuel acc log Hfuel;
    (destruct fuel as [|fuel]; [simpl in Hfuel; lia|]);
    rewrite (request_pages_step body f owner _ _ _ _ _ _ _ _ Hb Hown Hs Hrep),
      Hlast; cbv zeta.
  - unfold entries_of; simpl. now rewrite app_nil_r.
  - rewrite IH by (simpl in Hfuel; lia).
    unfold entries_of; simpl. rewrite fold_left_app, <- app_assoc.
    reflexivity.
Qed.

(** The loop body of [list_keys] adds the entry's key, or skips the
    entry. *)
Lemma list_keys_body_pure :
  pure_body
    (fun key result =>
       parsed <- try_except
                   (line <- lift (getitem key "text") ;;
                    pubkey <- lift (call_parser parse_openssh_pubkey line) ;;
                    ret (Some pubkey))
                   (fun _ => ret None) ;;
       match parsed with
       | None => ret (Continue result)
       | Some pubkey => ret (Continue (set_add pubkey result))
       end)
    (add_entry "text" parse_openssh_pubkey).
Proof.
  intros key acc s. unfold add_entry, entry_key. unmonad.
  destruct (getitem key "text") as [line|e|] eqn:Hg; try reflexivity.
  - destruct (call_parser parse_openssh_pubkey line) eqn:Hp; try reflexivity.
    now apply call_parser_total in Hp.
  - now apply getitem_total in Hg.
Qed.

End StashListing.

Lemma for_request_list_compatible {R : Remote} {B : Type} (fuel : nat)
  (self : Stash.StashKeyStore) (identity : Identity)
  (body : value -> B -> M (control B)) (acc : B) (s : net) :
  Stash.compatible self identity = Ret true ->
  Stash.for_request_list fuel self identity body acc s
  = Stash.request_pages fuel self identity (VInt 0) body acc s.
Proof.
  intro H. unfold Stash.for_request_list, bind, lift. now rewrite H.
Qed.

(** With an identity that does not pass the guard the generator ends at
    once: the loop body never runs and nothing is sent. *)
Lemma for_request_list_incompatible {R : Remote} {B : Type} (fuel : nat)
  (self : Stash.StashKeyStore) (identity : Identity)
  (body : value -> B -> M (control B)) (acc : B) (s : net) :
  Stash.compatible self identity = Ret false ->
  Stash.for_request_list fuel self identity body acc s
  = (Ret (Continue acc), s).
Proof.
  intro H. unfold Stash.for_request_list, bind, lift. now rewrite H.
Qed.

Lemma cursors_length (start : value) (pages : list page) :
  List.length (cursors start pages) = List.length pages.
Proof.
  revert start. induction pages as [|p ps IH]; intro start; simpl;
    [reflexivity | now rewrite IH].
Qed.

Lemma in_entries_of (e : value) (pages : list page) :
  In e (entries_of pages) <-> exists p, In p pages /\ In e (page_values p).
Proof.
  unfold entries_of. rewrite in_concat. split.
  - intros (l & Hl & He). apply in_map_iff in Hl.
    destruct Hl as (p & <- & Hp). now exists p.
  - intros (p & Hp & He). exists (page_values p). split; [|exact He].
    now apply in_map.
Qed.

(** C6: when the provider reports [pages] to the requests at cursor [0]
    and then at each page's [nextPageStart], the last page and only the
    last having [isLastPage], [StashKeyStore.list_keys] (with fuel for
    that many pages) sends exactly those requests, one per page and none
    after the last page, and returns the set of the keys of the entries of
    all the pages. *)
Theorem stash_list_keys_pagination {R : Remote} {K : KeystoreModule}
  (self : Stash.StashKeyStore) (identity : Identity) (owner : value * value)
  (w w' : world) (pages : list page) (fuel : nat) (log : list Request) :
  Stash.compatible self identity = Ret true ->
  unpack2 identity.(access_token) = Ret owner ->
  listing self owner w (VInt 0) pages w' ->
  (List.length pages <= fuel)%nat ->
  Stash.list_keys fuel self identity (mkNet w log)
  = (Ret (keys_of "text" parse_openssh_pubkey (entries_of pages)),
     mkNet w' (log ++ map (list_request self owner) (cursors (VInt 0) pages)))
  /\ List.length (cursors (VInt 0) pages) = List.length pages
  /\ forall k,
      key_in k (keys_of "text" parse_openssh_pubkey (entries_of pages)) = true
      <-> exists p e k',
          In p pages /\ In e (page_values p) /\
          entry_key "text" parse_openssh_pubkey e = Some k' /\
          key_eqb k k' = true.
Proof.
  intros Hc Hown Hl Hfuel. split; [|split].
  - unfold Stash.list_keys, bind at 1.
    rewrite (for_request_list_compatible _ _ _ _ _ _ Hc).
    rewrite (request_pages_listing self identity _ _ owner w (VInt 0) pages w'
               list_keys_body_pure Hown Hl fuel [] log Hfuel).
    reflexivity.
  - apply cursors_length.
  - intro k. rewrite key_in_keys_of. split.
    + intros (e & k' & He & Hk & Heq). apply in_entries_of in He.
      destruct He as (p & Hp & He). now exists p, e, k'.
    + intros (p & e & k' & Hp & He & Hk & Heq). exists e, k'.
      split; [|now split]. apply in_entries_of. now exists p.
Qed.

(** C6 at a concrete input: pages of sizes 2, 2 and 1; all five keys are
    returned and three requests are sent, at the cursors 0, 2 and 4. *)
Lemma stash_list_keys_pagination_witness :
  @Stash.list_keys stash_with_five_keys sample_keys 3 example_store alice
    (start_of stash_with_five_keys tt)
  = (Ret five_keys,
     @mkNet stash_with_five_keys tt
       [list_request example_store alice_owner (VInt 0);
        list_request example_store alice_owner (VInt 2);
        list_request example_store alice_owner (VInt 4)]).
Proof.
  refine (proj1 (@stash_list_keys_pagination stash_with_five_keys sample_keys
                   example_store alice alice_owner tt tt five_pages 3 []
                   _ _ _ _)).
  - reflexivity.
  - reflexivity.
  - eapply (@listing_more stash_with_five_keys);
      [reflexivity | | reflexivity |].
    { split; [reflexivity|]. eexists _, _, _. repeat split; reflexivity. }
    eapply (@listing_more stash_with_five_keys);
      [reflexivity | | reflexivity |].
    { split; [reflexivity|]. eexists _, _, _. repeat split; reflexivity. }
    eapply (@listing_last stash_with_five_keys);
      [reflexivity | | reflexivity].
    split; [reflexivity|]. eexists _, _, _. repeat split; try reflexivity.
    discriminate.
  - simpl. lia.
Defined.

(** ** Key stores and identities of another installation *)

Section Incompatible.
Context {R : Remote} {K : KeystoreModule}.

Lemma incompatible_guard (self : Stash.StashKeyStore) (identity : Identity) :
  incompatible self identity <-> Stash.compatible self identity = Ret false.
Proof.
  unfold incompatible, Stash.compatible, startswith. split.
  - intros [->|(id & Hid & Hn)]; [reflexivity|].
    destruct (issubclass _ _); [|reflexivity]. rewrite Hid.
    destruct (String.prefix _ id) eqn:Hp; [|reflexivity].
    apply prefix_inv in Hp. now elim Hn.
  - destruct (issubclass _ _); [|now left].
    destruct (identifier identity) as [| | |id| | |]; try discriminate.
    intro H. inversion H as [Hp]. right. exists id. split; [reflexivity|].
    intros [rest ->]. rewrite prefix_app in Hp. discriminate.
Qed.

End Incompatible.

(** C3 (amended): when the identity does not pass the guard of
    [StashKeyStore], its [register], [list_keys] and [deregister] send no
    request and return normally, [list_keys] with the empty set. *)
Theorem stash_keystore_incompatible_noop {R : Remote} {K : KeystoreModule}
  (self : Stash.StashKeyStore) (identity : Identity) (public_key : PublicKey)
  (fuel : nat) (s : net) :
  incompatible self identity ->
  Stash.register self identity public_key s = (Ret tt, s) /\
  Stash.list_keys fuel self identity s = (Ret [], s) /\
  Stash.deregister fuel self identity public_key s = (Ret tt, s).
Proof.
  intro H. apply incompatible_guard in H. repeat split.
  - unfold Stash.register, bind, lift. now rewrite H.
  - unfold Stash.list_keys, bind.
    now rewrite (for_request_list_incompatible _ _ _ _ _ _ H).
  - unfold Stash.deregister, bind.
    now rewrite (for_request_list_incompatible _ _ _ _ _ _ H).
Qed.

(** C3 at a concrete input: a GitHub identity at a Stash key store. *)
Lemma stash_keystore_incompatible_noop_witness :
  let s := start_of stash_with_five_keys tt in
  @Stash.register stash_with_five_keys sample_keys example_store octocat
    (mkPublicKey "ssh-rsa" "AAAA1" "") s = (Ret tt, s) /\
  @Stash.list_keys stash_with_five_keys sample_keys 0 example_store octocat s
  = (Ret [], s) /\
  @Stash.deregister stash_with_five_keys sample_keys 0 example_store octocat
    (mkPublicKey "ssh-rsa" "AAAA1" "") s = (Ret tt, s).
Proof.
  apply (@stash_keystore_incompatible_noop stash_with_five_keys sample_keys).
  left. reflexivity.
Defined.

(** C3, as stated, fails for [GitHubKeyStore], which has no guard: with an
    identity of another team class that carries a string token,
    [list_keys] sends its request; with the identity that [StashTeam]
    made, [list_keys] and [register] raise [TypeError] instead of
    returning. *)
Lemma github_keystore_has_no_guard :
  let s := start_of github_with_keys tt in
  let stranger := mkIdentity StashTeamClass
                    (VStr "https://stash.example.com/users/alice")
                    (VStr "t0ken") in
  issubclass stranger.(team_type) GitHubOrganizationClass = false /\
  net_log (snd (@GitHub.list_keys github_with_keys sample_keys stranger s))
  = [mkRequest GET GitHub.LIST_URL (TokenAuth "t0ken") NoData] /\
  @GitHub.list_keys github_with_keys sample_keys alice s
  = (Raise TypeError, s) /\
  @GitHub.register github_with_keys sample_keys alice
    (mkPublicKey "ssh-rsa" "AAAA1" "") s
  = (Raise TypeError, s).
Proof. repeat split. Qed.

(** ** Damaged entries *)

Section GitHubKeys.
Context {R : Remote} {K : KeystoreModule}.

(** The loop of [GitHubKeyStore.list_keys] stops with an exception at the
    first entry without a key. *)
Lemma github_collect_raises (items : list value) (acc : list PublicKey)
  (s : net) :
  (exists e, In e items /\ entry_key "key" parse_line e = None) ->
  exists ex,
    for_each items
      (fun key result =>
         line <- lift (getitem key "key") ;;
         pubkey <- lift (call_parser parse_line line) ;;
         ret (Continue (set_add pubkey result)))
      acc s
    = (Raise ex, s).
Proof.
  revert acc. induction items as [|x items IH]; intros acc (e & Hin & He).
  - destruct Hin.
  - simpl. unfold bind at 1. unfold bind at 1. unfold lift at 1.
    destruct (getitem x "key") as [line|ex|] eqn:Hg.
    + unfold bind at 1. unfold lift at 1.
      destruct (call_parser parse_line line) as [k|ex|] eqn:Hp.
      * unfold ret at 1. apply IH. destruct Hin as [<-|Hin].
        -- unfold entry_key in He. rewrite Hg, Hp in He. discriminate.
        -- now exists e.
      * now exists ex.
      * now apply call_parser_total in Hp.
    + now exists ex.
    + now apply getitem_total in Hg.
Qed.

(** [GitHubKeyStore.list_keys] raises when one stored entry has no key
    that parses. *)
Lemma github_list_keys_raises (identity : Identity) (s s1 : net)
  (keys : value) (items : list value) :
  GitHub.request (inl identity) GitHub.LIST_URL GET NoData s = (Ret keys, s1) ->
  py_iter keys = Ret items ->
  (exists e, In e items /\ entry_key "key" parse_line e = None) ->
  exists ex, GitHub.list_keys identity s = (Raise ex, s1).
Proof.
  intros Hreq Hit Hbad. unfold GitHub.list_keys.
  unfold bind at 1. rewrite Hreq. unfold bind at 1, lift at 1. rewrite Hit.
  unfold bind at 1.
  destruct (github_collect_raises items [] s1 Hbad) as [ex ->].
  now exists ex.
Qed.

End GitHubKeys.

(** C2 at the failing input: of three entries the second does not parse.
    [StashKeyStore.list_keys] skips it and returns the other two keys;
    [GitHubKeyStore.list_keys] raises and returns nothing. *)
Theorem list_keys_damaged_entry :
  entry_key "key" parse_sample
    (VDict [("id", VInt 2); ("key", VStr "garbage")]) = None /\
  fst (@Stash.list_keys stash_with_damaged_key sample_keys 1 example_store
         alice (start_of stash_with_damaged_key tt))
  = Ret [mkPublicKey "ssh-rsa" "AAAA1" "alice@laptop";
         mkPublicKey "ssh-ed25519" "AAAA3" ""] /\
  fst (@GitHub.list_keys github_with_keys sample_keys octocat
         (start_of github_with_keys tt))
  = Raise ValueError.
Proof. repeat split. Qed.

(** ** Registering a key that is already there *)

(** [StashKeyStore.register] formats [REGISTER_URL] with the key store,
    which has no [server_url]: with an identity that passes the guard it
    raises [AttributeError] before anything is sent. *)
Lemma stash_register_raises {R : Remote} {K : KeystoreModule}
  (self : Stash.StashKeyStore) (identity : Identity) (public_key : PublicKey)
  (s : net) :
  Stash.compatible self identity = Ret true ->
  Stash.register self identity public_key s
  = (Raise (AttributeError "server_url"), s).
Proof.
  intro H. unfold Stash.register, bind, lift, try_except. now rewrite H.
Qed.

(** [GitHubKeyStore.register] passes on whatever [request] raises. *)
Lemma github_register_raises {R : Remote} {K : KeystoreModule}
  (identity : Identity) (public_key : PublicKey) (s s' : net) (data : payload)
  (e : exn) :
  data = JsonData (VDict [("title", VStr public_key.(comment));
                          ("key", VStr (PublicKey_str public_key))]) ->
  GitHub.request (inl identity) GitHub.LIST_URL POST data s = (Raise e, s') ->
  GitHub.register identity public_key s = (Raise e, s').
Proof.
  intros -> H. unfold GitHub.register, bind. now rewrite H.
Qed.

(** C4 at the failing inputs: the provider answers the registration of a
    key with a conflict.  [GitHubKeyStore.register] raises the [HTTPError]
    of [urlopen]; [StashKeyStore.register] raises [AttributeError] and
    sends nothing.  Neither raises [DuplicatePublicKeyError]. *)
Theorem register_duplicate_key :
  let key := mkPublicKey "ssh-rsa" "AAAA1" "alice@laptop" in
  (exists r s',
      @GitHub.register github_with_keys sample_keys octocat key
        (start_of github_with_keys tt) = (Raise (HTTPError r), s')
      /\ code r = 422) /\
  @Stash.register stash_with_damaged_key sample_keys example_store alice key
    (start_of stash_with_damaged_key tt)
  = (Raise (AttributeError "server_url"), start_of stash_with_damaged_key tt).
Proof.
  split; [|reflexivity]. eexists _, _. split; reflexivity.
Qed.

(** ** Deregistering a key *)

(** C5 at the failing input: the key to remove is the third of five, on
    the second page.  [StashKeyStore.deregister] asks for two pages, finds
    the entry, and raises [TypeError] at [DEREGISTER_URL(...)]; no DELETE
    is sent.  [GitHubKeyStore.deregister] deletes the matching entry by
    its id, whatever the comment of the key. *)
Theorem deregister_matching_key :
  @Stash.deregister stash_with_five_keys sample_keys 3 example_store alice
    (mkPublicKey "ssh-ed25519" "AAAA3" "another comment")
    (start_of stash_with_five_keys tt)
  = (Raise TypeError,
     @mkNet stash_with_five_keys tt
       [list_request example_store alice_owner (VInt 0);
        list_request example_store alice_owner (VInt 2)]) /\
  @GitHub.deregister github_with_keys sample_keys octocat
    (mkPublicKey "ssh-rsa" "AAAA1" "another comment")
    (start_of github_with_keys tt)
  = (Ret tt,
     @mkNet github_with_keys tt
       [mkRequest GET GitHub.LIST_URL (TokenAuth "t0ken") NoData;
        mkRequest DELETE "https://api.github.com/user/keys/1"
          (TokenAuth "t0ken") NoData]).
Proof. split; reflexivity. Qed.

(** ** What an operation sends *)

Section Sends.
Context {R : Remote}.

Lemma sends_only_pure (P : Request -> Prop) {A : Type} (o : outcome A) :
  sends_only P (lift o).
Proof. intro s. exists []. now rewrite app_nil_r. Qed.

Lemma sends_only_urlopen (P : Request -> Prop) (rq : Request) :
  P rq -> sends_only P (urlopen rq).
Proof.
  intros H s. exists [rq]. rewrite urlopen_log. split; [reflexivity|].
  now constructor.
Qed.

Lemma sends_only_bind (P : Request -> Prop) {A B : Type}
  (m : M A) (k : A -> M B) :
  sends_only P m ->
  (forall a, (exists s s', m s = (Ret a, s')) -> sends_only P (k a)) ->
  sends_only P (bind m k).
Proof.
  intros Hm Hk s. unfold bind. destruct (Hm s) as (l1 & Hl1 & HP1).
  destruct (m s) as [[a|e|] s1] eqn:Hms; simpl in Hl1.
  - destruct (Hk a (ex_intro _ s (ex_intro _ s1 Hms)) s1) as (l2 & Hl2 & HP2).
    exists (l1 ++ l2)%list. rewrite Hl2, Hl1, app_assoc. split; [reflexivity|].
    now apply Forall_app.
  - now exists l1.
  - now exists l1.
Qed.

Lemma sends_only_for_each (P : Request -> Prop) {B : Type}
  (body : value -> B -> M (control B)) (items : list value) (acc : B) :
  (forall key acc, sends_only P (body key acc)) ->
  sends_only P (for_each items body acc).
Proof.
  intro Hb. revert acc. induction items as [|x items IH]; intro acc; simpl.
  - apply (sends_only_pure P (Ret (Continue acc))).
  - apply sends_only_bind; [apply Hb|]. intros [acc'|acc'] _.
    + apply IH.
    + apply (sends_only_pure P (Ret (Break acc'))).
Qed.

End Sends.

Section StashDeregister.
Context {R : Remote} {K : KeystoreModule}.

Lemma sends_only_ks_request (P : Request -> Prop) (self : Stash.StashKeyStore)
  (identity : Identity) (m : http_method) (url : string) (d : payload) :
  (forall rq, req_method rq = m -> P rq) ->
  sends_only P (Stash.ks_request self identity m url d).
Proof.
  intro H. unfold Stash.ks_request. apply sends_only_bind.
  - apply sends_only_pure.
  - intros p _. apply sends_only_urlopen. now apply H.
Qed.

Lemma sends_only_request_pages (P : Request -> Prop) {B : Type}
  (self : Stash.StashKeyStore) (identity : Identity)
  (body : value -> B -> M (control B)) (fuel : nat) :
  (forall rq, req_method rq = GET -> P rq) ->
  (forall key acc, sends_only P (body key acc)) ->
  forall start acc,
    sends_only P (Stash.request_pages fuel self identity start body acc).
Proof.
  intros HP Hb. induction fuel as [|fuel IH]; intros start acc; simpl.
  - intro s. exists []. now rewrite app_nil_r.
  - apply sends_only_bind; [apply sends_only_pure|]. intros url _.
    apply sends_only_bind; [now apply sends_only_ks_request|]. intros r _.
    destruct (negb _); [apply (sends_only_pure P (Raise AssertionError))|].
    apply sends_only_bind.
    { destruct (json r); [apply (sends_only_pure P (Ret v))
                         |apply (sends_only_pure P (Raise ValueError))]. }
    intros payload _.
    apply sends_only_bind; [apply sends_only_pure|]. intros values _.
    apply sends_only_bind; [apply sends_only_pure|]. intros items _.
    apply sends_only_bind; [now apply sends_only_for_each|].
    intros [acc'|acc'] _; [|apply (sends_only_pure P (Ret (Break acc')))].
    apply sends_only_bind; [apply sends_only_pure|]. intros last _.
    destruct (truthy last); [apply (sends_only_pure P (Ret (Continue acc')))|].
    apply sends_only_bind; [apply sends_only_pure|]. intros start' _.
    apply IH.
Qed.

(** Whatever the provider and the listing, [StashKeyStore.deregister]
    sends GET requests only: it never deletes anything. *)
Lemma stash_deregister_never_deletes (fuel : nat) (self : Stash.StashKeyStore)
  (identity : Identity) (public_key : PublicKey) :
  sends_only (fun rq => req_method rq = GET)
    (Stash.deregister fuel self identity public_key).
Proof.
  unfold Stash.deregister. apply sends_only_bind;
    [|intros; apply (sends_only_pure _ (Ret tt))].
  unfold Stash.for_request_list.
  apply sends_only_bind; [apply sends_only_pure|]. intros ok _.
  destruct (negb ok); [apply (sends_only_pure _ (Ret (Continue tt)))|].
  apply sends_only_request_pages; [auto|]. intros key acc.
  apply sends_only_bind; [apply sends_only_pure|]. intros line _.
  apply sends_only_bind; [apply sends_only_pure|]. intros pubkey _.
  destruct (key_eqb pubkey public_key);
    [|apply (sends_only_pure _ (Ret (Continue tt)))].
  apply sends_only_bind; [apply sends_only_pure|]. intros id _.
  apply sends_only_bind; [apply sends_only_pure|].
  intros url (s & s' & H). unfold lift, Stash.call_str in H. discriminate.
Qed.

End StashDeregister.

Section GitHubDeregister.
Context {R : Remote} {K : KeystoreModule}.

Lemma entry_key_some (field : string) (parse : string -> option PublicKey)
  (e : value) (k : PublicKey) :
  entry_key field parse e = Some k ->
  exists line, getitem e field = Ret line /\ call_parser parse line = Ret k.
Proof.
  unfold entry_key. destruct (getitem e field) as [line|ex|]; try discriminate.
  destruct (call_parser parse line) as [k'|ex|] eqn:Hp; try discriminate.
  intro H. inversion H; subst. now exists line.
Qed.

(** On a listing whose entries all parse, the loop of
    [GitHubKeyStore.deregister] deletes the first entry that matches and
    stops, or runs to the end without sending anything. *)
Lemma github_deregister_loop (identity : Identity) (public_key : PublicKey)
  (items : list value) (s : net) :
  Forall (fun e => entry_key "key" parse_line e <> None) items ->
  (for_each items
     (fun key _ =>
        line <- lift (getitem key "key") ;;
        pubkey <- lift (call_parser parse_line line) ;;
        if key_eqb pubkey public_key
        then
          url <- lift (GitHub.DEREGISTER_URL key) ;;
          GitHub.request (inl identity) url DELETE NoData ;;;
          ret (Break tt)
        else ret (Continue tt))
     tt ;;;
   ret tt) s
  = match find (matches public_key) items with
    | None => (Ret tt, s)
    | Some e => delete_entry identity e s
    end.
Proof.
  induction 1 as [|x items Hx _ IH]; [reflexivity|].
  destruct (entry_key "key" parse_line x) as [k|] eqn:Hk; [|now elim Hx].
  destruct (entry_key_some _ _ _ _ Hk) as (line & Hg & Hp).
  cbn [find for_each]. unfold matches at 1. rewrite Hk.
  unfold bind at 1 2 3. unfold lift at 1. rewrite Hg.
  unfold bind at 1. unfold lift at 1. rewrite Hp.
  destruct (key_eqb k public_key).
  - unfold delete_entry, bind, lift, ret.
    destruct (GitHub.DEREGISTER_URL x) as [url|e|]; try reflexivity.
    destruct (GitHub.request _ url DELETE NoData s) as [[v|e|] s1];
      reflexivity.
  - unfold ret at 1. exact IH.
Qed.

Lemma github_deregister_spec (identity : Identity) (public_key : PublicKey)
  (s s1 : net) (keys : value) (items : list value) :
  GitHub.request (inl identity) GitHub.LIST_URL GET NoData s = (Ret keys, s1) ->
  py_iter keys = Ret items ->
  Forall (fun e => entry_key "key" parse_line e <> None) items ->
  GitHub.deregister identity public_key s
  = match find (matches public_key) items with
    | None => (Ret tt, s1)
    | Some e => delete_entry identity e s1
    end.
Proof.
  intros Hreq Hit Hall. unfold GitHub.deregister.
  unfold bind at 1. rewrite Hreq. unfold bind at 1, lift at 1. rewrite Hit.
  now apply github_deregister_loop.
Qed.

End GitHubDeregister.

Lemma py_iter_total (v : value) : py_iter v <> OutOfFuel.
Proof. now destruct v. Qed.

(** ** github.request: the JSON fetch discipline *)

Section GitHubRequest.
Context {R : Remote}.

(** X1: for a method other than DELETE, [request] returns a value
    exactly when the token is a string and the provider answers the one
    request with a 2xx status, content type [application/json] and a body
    that [json.load] reads as JSON, which is the value returned. *)
Theorem github_request_returns (t : Identity + value) (url : string)
  (m : http_method) (d : payload) (s s' : net) (v : value) :
  m <> DELETE ->
  (GitHub.request t url m d s = (Ret v, s') <->
   exists tok r,
     match t with inl i => i.(access_token) | inr x => x end = VStr tok /\
     urlopen (mkRequest m url (TokenAuth tok) d) s = (Ret r, s') /\
     mimetype r = "application/json" /\ json r = Some v).
Proof.
  intro Hm.
  assert (Hd : method_eqb m DELETE = false)
    by (destruct m; try reflexivity; now elim Hm).
  unfold GitHub.request. rewrite Hd.
  destruct (match t with inl i => access_token i | inr x => x end)
    as [| | |tok| | |]; unfold raise, bind;
    try (split; [discriminate | intros (tok' & r & Ht & _); discriminate]).
  split.
  - destruct (urlopen _ s) as [[r|e|] s1] eqn:Hopen; try discriminate.
    destruct (mimetype r =? "application/json")%string eqn:Hj; simpl;
      unfold ret, raise; try discriminate.
    destruct (json r) as [v'|] eqn:Hv; [|discriminate].
    intro H. inversion H; subst. exists tok, r. apply String.eqb_eq in Hj.
    now repeat split.
  - intros (tok' & r & Ht & Hopen & Hj & Hv). inversion Ht; subst tok'.
    rewrite Hopen, Hj, Hv. reflexivity.
Qed.

(** X2: [request] raises [AssertionError] exactly when a request that is
    not a DELETE was sent and answered with a 2xx status and a content
    type other than [application/json]; it raises [TypeError] exactly when
    the token is not a string, and then nothing was sent. *)
Theorem github_request_raises (t : Identity + value) (url : string)
  (m : http_method) (d : payload) (s s' : net) :
  (GitHub.request t url m d s = (Raise AssertionError, s') <->
   exists tok r,
     match t with inl i => i.(access_token) | inr x => x end = VStr tok /\
     urlopen (mkRequest m url (TokenAuth tok) d) s = (Ret r, s') /\
     m <> DELETE /\ mimetype r <> "application/json") /\
  (GitHub.request t url m d s = (Raise TypeError, s') <->
   s' = s /\
   forall tok,
     match t with inl i => i.(access_token) | inr x => x end <> VStr tok).
Proof.
  unfold GitHub.request.
  destruct (match t with inl i => access_token i | inr x => x end)
    as [| | |tok| | |]; unfold raise, bind;
    try (split;
         [split; [discriminate | intros (tok' & r & Ht & _); discriminate]
         |split; [intro H; inversion H; split; [reflexivity|discriminate]
                 |intros [-> _]; reflexivity]]).
  split; split.
  - destruct (urlopen _ s) as [[r|e|] s1] eqn:Hopen.
    + destruct (mimetype r =? "application/json")%string eqn:Hm;
        destruct (method_eqb m DELETE) eqn:Hd; simpl; unfold ret, raise;
        try discriminate.
      * destruct (json r); discriminate.
      * intro H. inversion H; subst. exists tok, r.
        apply String.eqb_neq in Hm. repeat split; try assumption.
        intros ->. discriminate.
    + intro H. inversion H; subst. apply urlopen_raises in Hopen.
      discriminate.
    + discriminate.
  - intros (tok' & r & Ht & Hopen & Hd & Hm). inversion Ht; subst tok'.
    rewrite Hopen. apply String.eqb_neq in Hm. rewrite Hm.
    destruct m; simpl; try reflexivity. now elim Hd.
  - destruct (urlopen _ s) as [[r|e|] s1] eqn:Hopen.
    + destruct (negb _); [discriminate|].
      destruct (method_eqb m DELETE); [discriminate|].
      destruct (json r); discriminate.
    + intro H. inversion H; subst. apply urlopen_raises in Hopen.
      discriminate.
    + discriminate.
  - intros [_ H]. now elim (H tok).
Qed.

End GitHubRequest.

(** X1 at a concrete input: the profile request at a GitHub that knows
    [alice]. *)
Lemma github_request_returns_witness :
  @GitHub.request github_with_alice (inr (VStr "t0ken")) GitHub.USER_URL GET
    NoData (start_of github_with_alice tt)
  = (Ret (VDict [("login", VStr "alice")]),
     @mkNet github_with_alice tt
       [mkRequest GET GitHub.USER_URL (TokenAuth "t0ken") NoData]).
Proof.
  apply (@github_request_returns github_with_alice); [discriminate|].
  exists "t0ken", (json_response 200 (VDict [("login", VStr "alice")])).
  repeat split.
Defined.

(** ** GitHubOrganization.authorize: the live membership check *)

Section GitHubMembership.
Context {R : Remote}.

Lemma value_eq_str_true (v : value) (s : string) :
  value_eq_str v s = true <-> v = VStr s.
Proof.
  destruct v; simpl; try (split; discriminate).
  rewrite String.eqb_eq. split; [now intros -> | intro H; now inversion H].
Qed.

Lemma any_login_true (org : string) (items : list value) :
  GitHub.any_login org items = Ret true <-> lists_org org items.
Proof.
  unfold lists_org. induction items as [|x items IH]; simpl.
  - split; [discriminate|]. intros (b & o & a & H & _). now destruct b.
  - destruct (getitem x "login") as [l|e|] eqn:Hg.
    + destruct (value_eq_str l org) eqn:Hl.
      * split; [|reflexivity]. intros _. exists [], x, items.
        apply value_eq_str_true in Hl. subst l. now repeat split.
      * rewrite IH. split.
        -- intros (b & o & a & -> & Ho & Hb). exists (x :: b), o, a.
           repeat split; try assumption. constructor; [|exact Hb].
           now exists l.
        -- intros (b & o & a & H & Ho & Hb). destruct b as [|y b].
           ++ simpl in H. inversion H; subst. rewrite Ho in Hg.
              inversion Hg; subst. simpl in Hl.
              now rewrite String.eqb_refl in Hl.
           ++ simpl in H. inversion H; subst. exists b, o, a.
              inversion Hb; subst. now repeat split.
    + split; [discriminate|]. intros (b & o & a & H & Ho & Hb).
      destruct b as [|y b]; simpl in H; inversion H; subst.
      * rewrite Ho in Hg. discriminate.
      * inversion Hb as [|? ? (l & Hl & _) _]; subst. rewrite Hl in Hg.
        discriminate.
    + now apply getitem_total in Hg.
Qed.

Lemma any_login_false (org : string) (items : list value) :
  GitHub.any_login org items = Ret false <->
  Forall (fun x => exists l, getitem x "login" = Ret l
                             /\ value_eq_str l org = false) items.
Proof.
  induction items as [|x items IH]; simpl.
  - split; [constructor | reflexivity].
  - destruct (getitem x "login") as [l|e|] eqn:Hg.
    + destruct (value_eq_str l org) eqn:Hl.
      * split; [discriminate|]. intro H. inversion H as [|? ? (l' & Hl' & Hf) _].
        subst. rewrite Hg in Hl'. inversion Hl'; subst. congruence.
      * rewrite IH. split.
        -- intro H. constructor; [now exists l | exact H].
        -- intro H. now inversion H.
    + split; [discriminate|]. intro H.
      inversion H as [|? ? (l' & Hl' & _) _]. subst. rewrite Hg in Hl'.
      discriminate.
    + now apply getitem_total in Hg.
Qed.

(** X3: [GitHubOrganization.authorize] returns [True] exactly when the
    identity's team type is a subclass of [GitHubOrganization], the
    organizations request returns a value that is not an error mapping
    and can be iterated, and, going through it in order, an entry whose
    [login] is the organization's comes before any entry without a
    [login]. *)
Theorem github_authorize_true (self : GitHub.GitHubOrganization)
  (identity : Identity) (s s' : net) :
  GitHub.authorize self identity s = (Ret true, s') <->
  issubclass identity.(team_type) GitHubOrganizationClass = true /\
  exists response items,
    GitHub.request (inl identity) GitHub.ORGS_LIST_URL GET NoData s
    = (Ret response, s') /\
    GitHub.is_error_mapping response = false /\
    py_iter response = Ret items /\
    lists_org self.(GitHub.org_login) items.
Proof.
  unfold GitHub.authorize.
  destruct (issubclass _ _); simpl;
    [|split; [discriminate | intros [? _]; discriminate]].
  unfold bind, try_except, lift, ret.
  destruct (GitHub.request _ _ _ _ s) as [[v|e|] s1] eqn:Hreq.
  - destruct (GitHub.is_error_mapping v) eqn:Herr.
    + split; [discriminate|]. intros (_ & v' & items & H & He & _).
      inversion H; subst. congruence.
    + destruct (py_iter v) as [items|e|] eqn:Hit.
      * split.
        -- intro H. inversion H as [[Ha Hs]]. split; [reflexivity|].
           exists v, items. apply any_login_true in Ha. now repeat split.
        -- intros (_ & v' & items' & H & _ & Hit' & Hl). inversion H; subst.
           rewrite Hit in Hit'. inversion Hit'; subst.
           apply any_login_true in Hl. now rewrite Hl.
      * split; [discriminate|]. intros (_ & v' & items' & H & _ & Hit' & _).
        inversion H; subst. congruence.
      * now apply py_iter_total in Hit.
  - destruct (is_IOError e);
      (split; [discriminate | intros (_ & v' & items & H & _); discriminate]).
  - split; [discriminate | intros (_ & v' & items & H & _); discriminate].
Qed.

(** X4: [GitHubOrganization.authorize] returns [False] in exactly four
    cases: the identity's team type is not a subclass of
    [GitHubOrganization] (nothing is sent); the organizations request
    raises an [IOError]; the answer is a mapping with an [error] key; or
    every entry of the answer has a [login] and none is the
    organization's. *)
Theorem github_authorize_false (self : GitHub.GitHubOrganization)
  (identity : Identity) (s s' : net) :
  GitHub.authorize self identity s = (Ret false, s') <->
  (issubclass identity.(team_type) GitHubOrganizationClass = false /\ s' = s)
  \/ (issubclass identity.(team_type) GitHubOrganizationClass = true /\
      ((exists e, is_IOError e = true /\
                  GitHub.request (inl identity) GitHub.ORGS_LIST_URL GET NoData s
                  = (Raise e, s'))
       \/ exists response,
           GitHub.request (inl identity) GitHub.ORGS_LIST_URL GET NoData s
           = (Ret response, s') /\
           (GitHub.is_error_mapping response = true
            \/ (GitHub.is_error_mapping response = false /\
                exists items,
                  py_iter response = Ret items /\
                  Forall (fun x => exists l,
                              getitem x "login" = Ret l /\
                              value_eq_str l self.(GitHub.org_login) = false)
                    items)))).
Proof.
  unfold GitHub.authorize.
  destruct (issubclass _ _); simpl.
  2:{ unfold ret. split.
      - intro H. inversion H. now left.
      - intros [[_ ->]|[? _]]; [reflexivity|discriminate]. }
  unfold bind, try_except, lift, ret.
  destruct (GitHub.request _ _ _ _ s) as [[v|e|] s1] eqn:Hreq.
  - destruct (GitHub.is_error_mapping v) eqn:Herr.
    + split.
      * intro H. inversion H; subst. right. split; [reflexivity|]. right.
        exists v. split; [reflexivity|]. now left.
      * intros [[? _]|(_ & [(e & _ & H)|(v' & H & _)])]; try discriminate.
        now inversion H.
    + destruct (py_iter v) as [items|e|] eqn:Hit.
      * split.
        -- intro H. inversion H as [[Ha Hs]]. right. split; [reflexivity|].
           right. exists v. split; [reflexivity|]. right.
           split; [exact Herr|]. exists items. split; [exact Hit|].
           now apply any_login_false.
        -- intros [[? _]|(_ & [(e & _ & H)|(v' & H & Hc)])]; try discriminate.
           inversion H; subst.
           destruct Hc as [Hc|(_ & items' & Hit' & Hf)]; [congruence|].
           rewrite Hit in Hit'. inversion Hit'; subst.
           apply any_login_false in Hf. now rewrite Hf.
      * split; [discriminate|].
        intros [[? _]|(_ & [(e' & _ & H)|(v' & H & Hc)])]; try discriminate.
        inversion H; subst.
        destruct Hc as [Hc|(_ & items' & Hit' & _)]; congruence.
      * now apply py_iter_total in Hit.
  - destruct (is_IOError e) eqn:Hio.
    + split.
      * intro H. inversion H; subst. right. split; [reflexivity|]. left.
        now exists e.
      * intros [[? _]|(_ & [(e' & _ & H)|(v' & H & _)])]; try discriminate.
        now inversion H.
    + split; [discriminate|].
      intros [[? _]|(_ & [(e' & He' & H)|(v' & H & _)])]; try discriminate.
      inversion H; subst. congruence.
  - split; [discriminate|].
    intros [[? _]|(_ & [(e' & _ & H)|(v' & H & _)])]; discriminate.
Qed.

End GitHubMembership.

(** ** GitHubOrganization: the requests of a handshake *)

Section GitHubHandshake.
Context {R : Remote}.

Lemma github_request_ret_log (t : Identity + value) (url : string)
  (m : http_method) (d : payload) (s s' : net) (v : value) :
  GitHub.request t url m d s = (Ret v, s') ->
  exists tok,
    match t with inl i => i.(access_token) | inr x => x end = VStr tok /\
    net_log s' = (net_log s ++ [mkRequest m url (TokenAuth tok) d])%list.
Proof.
  intro H. pose proof (github_request_state t url m d s) as Hs.
  rewrite H in Hs. simpl in Hs. unfold GitHub.request in H.
  destruct (match t with inl i => access_token i | inr x => x end)
    as [| | |tok| | |]; try discriminate.
  exists tok. split; [reflexivity|]. subst s'. apply urlopen_log.
Qed.

Lemma exchange_ret_log (self : GitHub.GitHubOrganization)
  (code redirect : string) (s s1 : net) (token_data : value) :
  GitHub.exchange self code redirect s = (Ret token_data, s1) ->
  net_log s1
  = (net_log s ++ [GitHub.access_token_request self code redirect])%list.
Proof.
  rewrite exchange_spec.
  pose proof (urlopen_log (GitHub.access_token_request self code redirect) s)
    as Hl.
  destruct (urlopen _ s) as [[r|e|] s2]; try discriminate. simpl in Hl.
  destruct (mimetype r =? _)%string;
    [intro H; inversion H; now subst|].
  destruct (mimetype r =? _)%string; [|discriminate].
  destruct (json r); [|discriminate]. intro H; inversion H; now subst.
Qed.

Lemma github_authorize_true_request (self : GitHub.GitHubOrganization)
  (identity : Identity) (s s' : net) :
  GitHub.authorize self identity s = (Ret true, s') ->
  exists response,
    GitHub.request (inl identity) GitHub.ORGS_LIST_URL GET NoData s
    = (Ret response, s').
Proof.
  unfold GitHub.authorize.
  destruct (issubclass _ _); simpl; [|discriminate].
  unfold bind, try_except, lift, ret.
  destruct (GitHub.request _ _ _ _ s) as [[v|e|] s1]; try discriminate.
  - destruct (GitHub.is_error_mapping v); [discriminate|].
    destruct (py_iter v); try discriminate.
    intro H. inversion H; subst. now exists v.
  - destruct (is_IOError e); discriminate.
Qed.

(** X5: a call of [GitHubOrganization.authenticate] that returns an
    [Identity] has sent exactly three requests, in this order: the token
    exchange carrying the callback's [code], the profile request and the
    organizations request, the last two authorized by the access token
    that the returned [Identity] holds. *)
Theorem github_authenticate_requests (self : GitHub.GitHubOrganization)
  (nonce redirect : string) (args : list (string * string)) (s s' : net)
  (identity : Identity) :
  GitHub.authenticate self nonce redirect args s = (Ret identity, s') ->
  exists code token,
    lookup "code" args = Some code /\
    identity.(team_type) = GitHubOrganizationClass /\
    identity.(access_token) = VStr token /\
    net_log s' = (net_log s ++ github_handshake self code redirect token)%list.
Proof.
  intro H. apply github_authenticate_returns in H.
  destruct H as (s2 & (code & td & token & ud & login & s1
                       & [Hc _] & Hex & Htok & Hreq & Hlogin & ->) & Hauth).
  apply exchange_ret_log in Hex.
  apply github_request_ret_log in Hreq. destruct Hreq as (tok & -> & Hl2).
  apply github_authorize_true_request in Hauth. destruct Hauth as [resp Hauth].
  apply github_request_ret_log in Hauth. destruct Hauth as (tok' & Ht & Hl3).
  simpl in Ht. inversion Ht; subst tok'.
  exists code, tok. repeat split; try assumption.
  rewrite Hl3, Hl2, Hex. unfold github_handshake.
  now rewrite <- !app_assoc.
Qed.

(** X6: when the exchange answers with data that has no usable
    [access_token] (for instance GitHub's error payload), [authenticate]
    raises the lookup's error, a [KeyError] or [TypeError] and never an
    [AuthenticationError], after the exchange request alone. *)
Theorem github_authenticate_without_token (self : GitHub.GitHubOrganization)
  (nonce redirect : string) (args : list (string * string)) (s s1 : net)
  (code : string) (token_data : value) (e : exn) :
  callback_ok nonce args code ->
  GitHub.exchange self code redirect s = (Ret token_data, s1) ->
  getitem token_data "access_token" = Raise e ->
  GitHub.authenticate self nonce redirect args s = (Raise e, s1) /\
  (e = KeyError "access_token" \/ e = TypeError) /\
  net_log s1
  = (net_log s ++ [GitHub.access_token_request self code redirect])%list.
Proof.
  intros Hok Hex Hg. split; [|split].
  - unfold GitHub.authenticate, bind, lift.
    now rewrite (check_callback_ok _ _ _ _ Hok), Hex, Hg.
  - destruct token_data; simpl in Hg; try (inversion Hg; now right).
    destruct (lookup "access_token" entries); inversion Hg. now left.
  - now apply exchange_ret_log in Hex.
Qed.

(** X7: the [state] that [request_authentication] puts into the authorize
    URL for a nonce is that nonce, and a callback that echoes it together
    with a code passes the callback check of [authenticate] for a nonce
    exactly when the two nonces are the same. *)
Theorem github_nonce_round_trip (self : GitHub.GitHubOrganization)
  (nonce nonce' redirect code : string) (s : net) :
  let query := snd (GitHub.request_authentication self nonce redirect) in
  lookup "state" query = Some nonce /\
  lookup "redirect_uri" query = Some redirect /\
  forall st,
    lookup "state" query = Some st ->
    (GitHub.check_callback nonce' [("code", code); ("state", st)] s
     = (Ret code, s)
     <-> nonce' = nonce).
Proof.
  simpl. repeat split; try reflexivity.
  - intro Hc. inversion H; subst st. rewrite check_callback_spec in Hc.
    simpl in Hc. destruct (nonce =? nonce')%string eqn:He; [|discriminate].
    apply String.eqb_eq in He. now subst.
  - intros ->. inversion H; subst st. rewrite check_callback_spec. simpl.
    now rewrite String.eqb_refl.
Qed.

End GitHubHandshake.

(** X6 at a concrete input: the exchange answers with GitHub's error
    payload. *)
Lemma github_authenticate_without_token_witness :
  @GitHub.authenticate github_bad_code spoqa "nonce" "https://geofront/cb"
    [("code", "c0de"); ("state", "nonce")] (start_of github_bad_code tt)
  = (Raise (KeyError "access_token"),
     @mkNet github_bad_code tt
       [GitHub.access_token_request spoqa "c0de" "https://geofront/cb"]).
Proof.
  refine (proj1 (@github_authenticate_without_token github_bad_code spoqa
                   "nonce" "https://geofront/cb"
                   [("code", "c0de"); ("state", "nonce")]
                   (start_of github_bad_code tt) _ "c0de"
                   (VDict [("error", VStr "bad_verification_code")])
                   (KeyError "access_token") _ _ _)).
  - split; reflexivity.
  - reflexivity.
  - reflexivity.
Defined.

(** X5 at a concrete input: [alice] logs in at GitHub. *)
Lemma github_authenticate_requests_witness :
  exists code token,
    lookup "code" [("code", "c0de"); ("state", "nonce")] = Some code /\
    team_type (mkIdentity GitHubOrganizationClass (VStr "alice") (VStr "t0ken"))
    = GitHubOrganizationClass /\
    access_token (mkIdentity GitHubOrganizationClass (VStr "alice") (VStr "t0ken"))
    = VStr token /\
    @net_log github_with_alice
      (snd (@GitHub.authenticate github_with_alice spoqa "nonce"
              "https://geofront/cb" [("code", "c0de"); ("state", "nonce")]
              (start_of github_with_alice tt)))
    = ([] ++ github_handshake spoqa code "https://geofront/cb" token)%list.
Proof.
  apply (@github_authenticate_requests github_with_alice spoqa "nonce"
           "https://geofront/cb" [("code", "c0de"); ("state", "nonce")]
           (start_of github_with_alice tt)
           (snd (@GitHub.authenticate github_with_alice spoqa "nonce"
                   "https://geofront/cb" [("code", "c0de"); ("state", "nonce")]
                   (start_of github_with_alice tt)))).
  reflexivity.
Defined.

(** ** StashTeam: the server URL *)

Lemma rstrip_slash_no_slash (u : string) :
  ends_with_slash (rstrip_slash u) = false.
Proof.
  induction u as [|c u IH]; [reflexivity|]. simpl.
  destruct (rstrip_slash u) as [|d t] eqn:Ht.
  - destruct (Ascii.eqb c "/") eqn:Hc; [reflexivity|]. simpl. exact Hc.
  - exact IH.
Qed.

Lemma rstrip_slash_slashes (u : string) :
  exists n, u = rstrip_slash u ++ slashes n.
Proof.
  induction u as [|c u [n IH]]; [now exists 0%nat|]. simpl.
  destruct (rstrip_slash u) as [|d t] eqn:Ht.
  - simpl in IH. destruct (Ascii.eqb c "/") eqn:Hc.
    + apply Ascii.eqb_eq in Hc. subst c. exists (S n). simpl. now rewrite IH.
    + exists n. simpl. now rewrite <- IH.
  - exists n. simpl. simpl in IH. now rewrite <- IH.
Qed.

(** X8: the [server_url] that [StashTeam.__init__] keeps does not end with
    a slash, and the URL it was given is that [server_url] followed by
    slashes only; a URL without a trailing slash is kept as it is. *)
Theorem StashTeam_init_server_url (url consumer_key rsa_key : string) :
  let self := Stash.StashTeam_init url consumer_key rsa_key in
  ends_with_slash self.(Stash.server_url) = false /\
  (exists n, url = self.(Stash.server_url) ++ slashes n) /\
  (ends_with_slash url = false -> self.(Stash.server_url) = url).
Proof.
  simpl. split; [apply rstrip_slash_no_slash|]. split;
    [apply rstrip_slash_slashes|].
  induction url as [|c u IH]; [reflexivity|]. simpl.
  destruct u as [|d u'].
  - simpl. now intros ->.
  - intro H. specialize (IH H). rewrite IH. reflexivity.
Qed.

(** ** StashTeam: the handshake *)

Section StashHandshake.
Context {R : Remote}.

(** [a, b = v] raises nothing but [TypeError] and [ValueError]. *)
Lemma unpack2_raises (v : value) (e : exn) :
  unpack2 v = Raise e -> e = TypeError \/ e = ValueError.
Proof.
  unfold unpack2. destruct v; simpl; try (intro H; inversion H; now left).
  - destruct (chars s) as [|a [|b [|c l]]]; intro H; inversion H; now right.
  - destruct items as [|a [|b [|c l]]]; intro H; inversion H; now right.
  - destruct items as [|a [|b [|c l]]]; intro H; inversion H; now right.
  - destruct (map _ entries) as [|a [|b [|c l]]]; intro H; inversion H;
      now right.
Qed.

Lemma urlopen_ret_log (rq : Request) (s s' : net) (r : response) :
  urlopen rq s = (Ret r, s') -> net_log s' = (net_log s ++ [rq])%list.
Proof.
  intro H. pose proof (urlopen_log rq s) as Hl. now rewrite H in Hl.
Qed.

Lemma urlopen_not_auth (rq : Request) (s s' : net) (e : exn) :
  urlopen rq s = (Raise e, s') -> is_AuthenticationError e = false.
Proof. intro H. apply urlopen_raises in H. now destruct e. Qed.

(** X9: [StashTeam.request_authentication] returns a continuation exactly
    when the provider answers the request-token request, signed with the
    consumer key alone, with a 2xx status and form fields [oauth_token]
    and [oauth_token_secret]; the continuation's state is that pair, and
    its URL is the authorize URL of the server with the token and the
    callback URL as query. *)
Theorem stash_request_authentication_returns (self : Stash.StashTeam)
  (redirect : string) (s s' : net) (c : Stash.AuthenticationContinuation) :
  Stash.request_authentication self redirect s = (Ret c, s') <->
  exists r token secret,
    urlopen (request_token_request self) s = (Ret r, s') /\
    lookup "oauth_token" (form r) = Some token /\
    lookup "oauth_token_secret" (form r) = Some secret /\
    c = Stash.mkContinuation
          (self.(Stash.server_url) ++ Stash.AUTHORIZE_URL,
           [("oauth_token", VStr token); ("oauth_callback", VStr redirect)])
          (VTuple [VStr token; VStr secret]).
Proof.
  unfold Stash.request_authentication, Stash.request, request_token_request,
    bind, lift, ret, args_getitem. simpl.
  destruct (urlopen _ s) as [[r|e|] s1] eqn:Hopen.
  - destruct (lookup "oauth_token" (form r)) as [tok|] eqn:Ht.
    + destruct (lookup "oauth_token_secret" (form r)) as [sec|] eqn:Hs.
      * split.
        -- intro H. inversion H; subst. now exists r, tok, sec.
        -- intros (r' & tok' & sec' & H & Ht' & Hs' & ->).
           inversion H; subst. congruence.
      * split; [discriminate|].
        intros (r' & tok' & sec' & H & Ht' & Hs' & _). inversion H; subst.
        congruence.
    + split; [discriminate|].
      intros (r' & tok' & sec' & H & Ht' & _). inversion H; subst. congruence.
  - split; [discriminate | intros (r' & ? & ? & H & _); discriminate].
  - split; [discriminate | intros (r' & ? & ? & H & _); discriminate].
Qed.

Lemma stash_authenticate_after_checks (self : Stash.StashTeam)
  (state : value) (redirect : string) (args : list (string * string))
  (s : net) (rt rs : value) :
  unpack2 state = Ret (rt, rs) ->
  opt_str_eqb (lookup "oauth_token" args) rt = true ->
  Stash.authenticate self state redirect args s
  = match urlopen (stash_exchange_request self (rt, rs)) s with
    | (Ret r1, s1) =>
        match lookup "oauth_token" (form r1) with
        | None => (Raise (KeyError "oauth_token"), s1)
        | Some token =>
            match lookup "oauth_token_secret" (form r1) with
            | None => (Raise (KeyError "oauth_token_secret"), s1)
            | Some secret =>
                match urlopen (whoami_request self token secret) s1 with
                | (Ret r2, s2) =>
                    (Ret (mkIdentity StashTeamClass
                            (VStr (self.(Stash.server_url) ++ "/users/"
                                     ++ text r2))
                            (VTuple [VStr token; VStr secret])), s2)
                | (Raise e, s2) => (Raise e, s2)
                | (OutOfFuel, s2) => (OutOfFuel, s2)
                end
            end
        end
    | (Raise e, s1) => (Raise e, s1)
    | (OutOfFuel, s1) => (OutOfFuel, s1)
    end.
Proof.
  intros Hu He.
  unfold Stash.authenticate, Stash.request, stash_exchange_request,
    whoami_request, bind, lift, ret, try_except, args_getitem.
  rewrite Hu, He. simpl.
  destruct (urlopen _ s) as [[r1|e|] s1]; try reflexivity.
  destruct (lookup "oauth_token" (form r1)) as [tok|]; [|reflexivity].
  destruct (lookup "oauth_token_secret" (form r1)) as [sec|]; [|reflexivity].
  destruct (urlopen _ s1) as [[r2|e|] s2]; try reflexivity.
  now rewrite string_app_assoc.
Qed.

(** X10: [StashTeam.authenticate] returns an [Identity] exactly when the
    state unpacks to a pair, the callback's [oauth_token] equals its first
    item, the exchange request signed for that pair is answered with a 2xx
    status and form fields [oauth_token] and [oauth_token_secret], and the
    profile request signed for these is answered with a 2xx status; the
    [Identity] then holds the profile URL of the answered name and the
    access token pair. *)
Theorem stash_authenticate_returns (self : Stash.StashTeam) (state : value)
  (redirect : string) (args : list (string * string)) (s s' : net)
  (identity : Identity) :
  Stash.authenticate self state redirect args s = (Ret identity, s') <->
  exists rt rs r1 s1 token secret r2,
    unpack2 state = Ret (rt, rs) /\
    opt_str_eqb (lookup "oauth_token" args) rt = true /\
    urlopen (stash_exchange_request self (rt, rs)) s = (Ret r1, s1) /\
    lookup "oauth_token" (form r1) = Some token /\
    lookup "oauth_token_secret" (form r1) = Some secret /\
    urlopen (whoami_request self token secret) s1 = (Ret r2, s') /\
    identity = mkIdentity StashTeamClass
                 (VStr (self.(Stash.server_url) ++ "/users/" ++ text r2))
                 (VTuple [VStr token; VStr secret]).
Proof.
  split.
  - intro H.
    destruct (unpack2 state) as [[rt rs]|e|] eqn:Hu.
    2,3: (unfold Stash.authenticate, bind, try_except, lift in H;
          rewrite Hu in H; try destruct e; discriminate).
    destruct (opt_str_eqb (lookup "oauth_token" args) rt) eqn:He.
    2:{ rewrite (stash_authenticate_token_mismatch _ _ _ _ _ _ _ Hu He) in H.
        discriminate. }
    rewrite (stash_authenticate_after_checks _ _ _ _ _ _ _ Hu He) in H.
    destruct (urlopen _ s) as [[r1|e|] s1] eqn:Ho1; try discriminate.
    destruct (lookup "oauth_token" (form r1)) as [tok|] eqn:Ht;
      [|discriminate].
    destruct (lookup "oauth_token_secret" (form r1)) as [sec|] eqn:Hs;
      [|discriminate].
    destruct (urlopen _ s1) as [[r2|e|] s2] eqn:Ho2; try discriminate.
    inversion H; subst. exists rt, rs, r1, s1, tok, sec, r2.
    now repeat split.
  - intros (rt & rs & r1 & s1 & tok & sec & r2
            & Hu & He & Ho1 & Ht & Hs & Ho2 & ->).
    rewrite (stash_authenticate_after_checks _ _ _ _ _ _ _ Hu He).
    now rewrite Ho1, Ht, Hs, Ho2.
Qed.

Lemma stash_authenticate_auth_error (self : Stash.StashTeam) (state : value)
  (redirect : string) (args : list (string * string)) (s s' : net)
  (msg : string) :
  Stash.authenticate self state redirect args s
  = (Raise (AuthenticationError msg), s') ->
  s' = s /\ msg = "" /\
  (unpack2 state = Raise ValueError
   \/ exists rt rs, unpack2 state = Ret (rt, rs)
                    /\ opt_str_eqb (lookup "oauth_token" args) rt = false).
Proof.
  intro H. destruct (unpack2 state) as [[rt rs]|e|] eqn:Hu.
  - destruct (opt_str_eqb (lookup "oauth_token" args) rt) eqn:He.
    + rewrite (stash_authenticate_after_checks _ _ _ _ _ _ _ Hu He) in H.
      destruct (urlopen _ s) as [[r1|e|] s1] eqn:Ho1; try discriminate.
      * destruct (lookup "oauth_token" (form r1)) as [tok|]; [|discriminate].
        destruct (lookup "oauth_token_secret" (form r1)) as [sec|];
          [|discriminate].
        destruct (urlopen _ s1) as [[r2|e|] s2] eqn:Ho2; try discriminate.
        inversion H; subst. apply urlopen_not_auth in Ho2. discriminate.
      * inversion H; subst. apply urlopen_not_auth in Ho1. discriminate.
    + rewrite (stash_authenticate_token_mismatch _ _ _ _ _ _ _ Hu He) in H.
      inversion H; subst. repeat split. right. now exists rt, rs.
  - unfold Stash.authenticate, bind, try_except, lift in H. rewrite Hu in H.
    destruct (unpack2_raises _ _ Hu) as [->| ->]; unfold raise in H;
      inversion H; subst.
    repeat split. now left.
  - unfold Stash.authenticate, bind, try_except, lift in H. rewrite Hu in H.
    discriminate.
Qed.

(** X11: [StashTeam.authenticate] raises [AuthenticationError] exactly
    when the state is an iterable without exactly two items or the
    callback's [oauth_token] differs from the state's first item, and
    then nothing has been sent; every failure after the first request is
    another exception. *)
Theorem stash_authenticate_rejects (self : Stash.StashTeam) (state : value)
  (redirect : string) (args : list (string * string)) (s s' : net)
  (msg : string) :
  Stash.authenticate self state redirect args s
  = (Raise (AuthenticationError msg), s') <->
  s' = s /\ msg = "" /\
  (unpack2 state = Raise ValueError
   \/ exists rt rs, unpack2 state = Ret (rt, rs)
                    /\ opt_str_eqb (lookup "oauth_token" args) rt = false).
Proof.
  split; [apply stash_authenticate_auth_error|].
  intros (-> & -> & [Hu|(rt & rs & Hu & He)]).
  - now apply stash_authenticate_bad_state.
  - now apply (stash_authenticate_token_mismatch _ _ _ _ _ rt rs).
Qed.

(** X12: the continuation of [request_authentication] completes the
    handshake: its state is a pair of strings whose first item is the
    [oauth_token] of the authorize URL, and an [authenticate] call with
    that state and a callback that echoes the token is never rejected
    with [AuthenticationError]; its first request is the exchange signed
    for the pair. *)
Theorem stash_continuation_round_trip (self : Stash.StashTeam)
  (redirect : string) (s s1 : net) (c : Stash.AuthenticationContinuation) :
  Stash.request_authentication self redirect s = (Ret c, s1) ->
  exists token secret,
    c.(Stash.state) = VTuple [VStr token; VStr secret] /\
    lookup "oauth_token" (snd c.(Stash.next_url)) = Some (VStr token) /\
    lookup "oauth_callback" (snd c.(Stash.next_url)) = Some (VStr redirect) /\
    forall redirect' args s2,
      lookup "oauth_token" args = Some token ->
      (forall e s3,
          Stash.authenticate self c.(Stash.state) redirect' args s2
          = (Raise e, s3) -> is_AuthenticationError e = false) /\
      exists rest,
        net_log (snd (Stash.authenticate self c.(Stash.state) redirect' args s2))
        = (net_log s2
             ++ stash_exchange_request self (VStr token, VStr secret) :: rest)%list.
Proof.
  intro H.
  unfold Stash.request_authentication, Stash.request, bind, lift, ret,
    args_getitem in H. simpl in H.
  destruct (urlopen _ s) as [[r|e|] s0]; try discriminate.
  destruct (lookup "oauth_token" (form r)) as [tok|]; [|discriminate].
  destruct (lookup "oauth_token_secret" (form r)) as [sec|]; [|discriminate].
  inversion H; subst. clear H. exists tok, sec. simpl.
  repeat split; try reflexivity.
  - intros e s3 He. destruct e; try reflexivity.
    apply stash_authenticate_auth_error in He.
    destruct He as (_ & _ & [Hu|(rt & rs & Hu & Hne)]); [discriminate|].
    simpl in Hu. inversion Hu; subst. rewrite H in Hne. simpl in Hne.
    now rewrite String.eqb_refl in Hne.
  - rewrite (stash_authenticate_after_checks self
               (VTuple [VStr tok; VStr sec]) redirect' args s2
               (VStr tok) (VStr sec) eq_refl)
      by (rewrite H; simpl; apply String.eqb_refl).
    pose proof (urlopen_log
                  (stash_exchange_request self (VStr tok, VStr sec)) s2) as Hl.
    destruct (urlopen _ s2) as [[r1|e|] s3]; simpl in Hl;
      try (exists []; exact Hl).
    destruct (lookup "oauth_token" (form r1)) as [t|];
      [|exists []; exact Hl].
    destruct (lookup "oauth_token_secret" (form r1)) as [t'|];
      [|exists []; exact Hl].
    pose proof (urlopen_log (whoami_request self t t') s3) as Hl2.
    exists [whoami_request self t t'].
    destruct (urlopen _ s3) as [[r2|e|] s4]; simpl in *;
      rewrite Hl2, Hl, <- app_assoc; reflexivity.
Qed.

End StashHandshake.

(** ** StashKeyStore: what the listing loop sends *)

Section StashKeyStoreSends.
Context {R : Remote} {K : KeystoreModule}.

Lemma sends_only_weaken (P Q : Request -> Prop) {A : Type} (m : M A) :
  (forall rq, P rq -> Q rq) -> sends_only P m -> sends_only Q m.
Proof.
  intros H Hm s. destruct (Hm s) as (added & Hl & HP). exists added.
  split; [exact Hl|]. now apply (Forall_impl Q H).
Qed.

Lemma pure_body_sends_nothing {B : Type} (body : value -> B -> M (control B))
  (f : B -> value -> B) :
  pure_body body f ->
  forall key acc, sends_only (fun _ => False) (body key acc).
Proof.
  intros Hb key acc s. exists []. rewrite Hb. simpl.
  now rewrite app_nil_r.
Qed.

Lemma sends_only_list_requests {B : Type} (self : Stash.StashKeyStore)
  (identity : Identity) (body : value -> B -> M (control B)) (fuel : nat) :
  (forall key acc, sends_only (fun _ => False) (body key acc)) ->
  forall start acc,
    sends_only (signed_list_request self identity)
      (Stash.request_pages fuel self identity start body acc).
Proof.
  intros Hb. induction fuel as [|fuel IH]; intros start acc; simpl.
  - intro s. exists []. now rewrite app_nil_r.
  - apply sends_only_bind; [apply sends_only_pure|]. intros url (s0 & s0' & Hu).
    unfold lift, Stash.format01, Stash.format0 in Hu. inversion Hu; subst url.
    apply sends_only_bind.
    { unfold Stash.ks_request. apply sends_only_bind; [apply sends_only_pure|].
      intros owner (s1 & s1' & Ho). unfold lift in Ho. inversion Ho as [[Ho' Hs]].
      apply sends_only_urlopen. now exists owner, start. }
    intros r _.
    destruct (negb _); [apply (sends_only_pure _ (Raise AssertionError))|].
    apply sends_only_bind.
    { destruct (json r); [apply (sends_only_pure _ (Ret v))
                         |apply (sends_only_pure _ (Raise ValueError))]. }
    intros payload _.
    apply sends_only_bind; [apply sends_only_pure|]. intros values _.
    apply sends_only_bind; [apply sends_only_pure|]. intros items _.
    apply sends_only_bind.
    { apply sends_only_for_each. intros key acc'.
      apply (sends_only_weaken (fun _ => False)); [now intros|apply Hb]. }
    intros [acc'|acc'] _; [|apply (sends_only_pure _ (Ret (Break acc')))].
    apply sends_only_bind; [apply sends_only_pure|]. intros last _.
    destruct (truthy last); [apply (sends_only_pure _ (Ret (Continue acc')))|].
    apply sends_only_bind; [apply sends_only_pure|]. intros start' _.
    apply IH.
Qed.

(** X13: whatever the provider and the listing, every request that
    [StashKeyStore.deregister] sends is a GET for a page of the listing,
    signed for the identity's token pair: it sends no DELETE. *)
Theorem stash_deregister_sends_list_requests (fuel : nat)
  (self : Stash.StashKeyStore) (identity : Identity) (public_key : PublicKey) :
  sends_only
    (fun rq => signed_list_request self identity rq /\ req_method rq = GET)
    (Stash.deregister fuel self identity public_key).
Proof.
  apply (sends_only_weaken (signed_list_request self identity)).
  { intros rq H. split; [exact H|]. now destruct H as (o & st & _ & ->). }
  unfold Stash.deregister. apply sends_only_bind;
    [|intros; apply (sends_only_pure _ (Ret tt))].
  unfold Stash.for_request_list.
  apply sends_only_bind; [apply sends_only_pure|]. intros ok _.
  destruct (negb ok); [apply (sends_only_pure _ (Ret (Continue tt)))|].
  apply sends_only_list_requests. intros key acc.
  apply sends_only_bind; [apply sends_only_pure|]. intros line _.
  apply sends_only_bind; [apply sends_only_pure|]. intros pubkey _.
  destruct (key_eqb pubkey public_key);
    [|apply (sends_only_pure _ (Ret (Continue tt)))].
  apply sends_only_bind; [apply sends_only_pure|]. intros id _.
  apply sends_only_bind; [apply sends_only_pure|].
  intros url (s & s' & H). unfold lift, Stash.call_str in H. discriminate.
Qed.

Lemma stash_list_keys_sends (fuel : nat) (self : Stash.StashKeyStore)
  (identity : Identity) :
  sends_only (signed_list_request self identity)
    (Stash.list_keys fuel self identity).
Proof.
  unfold Stash.list_keys. apply sends_only_bind.
  - unfold Stash.for_request_list.
    apply sends_only_bind; [apply sends_only_pure|]. intros ok _.
    destruct (negb ok); [apply (sends_only_pure _ (Ret (Continue [])))|].
    apply sends_only_list_requests.
    apply (pure_body_sends_nothing _ _ list_keys_body_pure).
  - intros [result|result] _; apply (sends_only_pure _ (Ret result)).
Qed.

(** X14: an [Identity] that [StashTeam.authenticate] returned passes the
    guard of a key store of the same team, its access token unpacks to the
    pair of strings received in the exchange, and every request that
    [list_keys] then sends is a GET for a page of the listing signed for
    that pair. *)
Theorem stash_identity_at_key_store (self : Stash.StashTeam) (state : value)
  (redirect : string) (args : list (string * string)) (s s' : net)
  (identity : Identity) :
  Stash.authenticate self state redirect args s = (Ret identity, s') ->
  let store := Stash.mkStashKeyStore self in
  Stash.compatible store identity = Ret true /\
  exists token secret,
    unpack2 identity.(access_token) = Ret (VStr token, VStr secret) /\
    forall fuel,
      sends_only
        (fun rq => exists start,
             rq = list_request store (VStr token, VStr secret) start)
        (Stash.list_keys fuel store identity).
Proof.
  intros H store. apply stash_authenticate_inv in H.
  destruct H as (rt & rs & tok & sec & whoami & _ & _ & ->).
  split.
  - unfold Stash.compatible. simpl. now rewrite prefix_app.
  - exists tok, sec. split; [reflexivity|]. intro fuel.
    eapply sends_only_weaken; [|apply stash_list_keys_sends].
    intros rq (owner & start & Ho & ->). simpl in Ho. inversion Ho; subst.
    now exists start.
Qed.

End StashKeyStoreSends.

(** X12 at a concrete input: a request token is handed out, and the
    callback that echoes it is accepted. *)
Lemma stash_continuation_round_trip_witness :
  let c := Stash.mkContinuation
             ("https://stash.example.com/plugins/servlet/oauth/authorize",
              [("oauth_token", VStr "request");
               ("oauth_callback", VStr "https://geofront/cb")])
             (VTuple [VStr "request"; VStr "request-secret"]) in
  exists token secret,
    c.(Stash.state) = VTuple [VStr token; VStr secret] /\
    lookup "oauth_token" (snd c.(Stash.next_url)) = Some (VStr token).
Proof.
  intro c.
  destruct (@stash_continuation_round_trip stash_handshake example_team
              "https://geofront/cb" (start_of stash_handshake tt)
              (@mkNet stash_handshake tt [request_token_request example_team])
              c eq_refl)
    as (token & secret & Hstate & Htoken & _).
  exists token, secret. split; assumption.
Defined.

(** X14 at a concrete input: [alice] at the key store of her team. *)
Lemma stash_identity_at_key_store_witness :
  Stash.compatible example_store alice = Ret true.
Proof.
  refine (proj1 (@stash_identity_at_key_store stash_with_alice sample_keys
                   example_team
                   (VTuple [VStr "request"; VStr "request-secret"])
                   "https://geofront/cb" [("oauth_token", "request")]
                   (start_of stash_with_alice tt)
                   (snd (@Stash.authenticate stash_with_alice example_team
                           (VTuple [VStr "request"; VStr "request-secret"])
                           "https://geofront/cb" [("oauth_token", "request")]
                           (start_of stash_with_alice tt)))
                   alice _)).
  reflexivity.
Defined.

(** ** StashKeyStore: listings that do not end, and answers that are not
    pages *)

Section StashListingEdges.
Context {R : Remote} {K : KeystoreModule}.
Variable self : Stash.StashKeyStore.
Variable identity : Identity.
Variable owner : value * value.
Hypothesis Hcompatible : Stash.compatible self identity = Ret true.
Hypothesis Howner : unpack2 identity.(access_token) = Ret owner.

Lemma request_pages_endless {B : Type} (body : value -> B -> M (control B))
  (f : B -> value -> B) :
  pure_body body f ->
  (forall w start, exists r w' p,
      serve w (list_request self owner start) = (Answer r, w')
      /\ reports r p /\ page_last p = false) ->
  forall (fuel : nat) (start : value) (acc : B) (w : world)
         (log : list Request),
  exists w' log',
    Stash.request_pages fuel self identity start body acc (mkNet w log)
    = (OutOfFuel, mkNet w' log')
    /\ List.length log' = (List.length log + fuel)%nat.
Proof.
  intros Hb Hserve. induction fuel as [|fuel IH]; intros start acc w log.
  - exists w, log. split; [reflexivity | lia].
  - destruct (Hserve w start) as (r & w1 & p & Hs & Hrep & Hlast).
    rewrite (request_pages_step self identity body f owner w start r w1 p
               fuel acc log Hb Howner Hs Hrep), Hlast. cbv zeta.
    destruct (IH (page_next p) (fold_left f (page_values p) acc) w1
                (log ++ [list_request self owner start])%list)
      as (w' & log' & -> & Hlen).
    exists w', log'. split; [reflexivity|].
    rewrite Hlen, length_app. simpl. lia.
Qed.

(** X15: when the provider answers every request for a page with a page
    that is not the last, [StashKeyStore.list_keys] does not come to an
    end: whatever the number of turns of its loop that are allowed, it is
    still asking, having sent one request per turn. *)
Theorem stash_list_keys_endless :
  (forall w start, exists r w' p,
      serve w (list_request self owner start) = (Answer r, w')
      /\ reports r p /\ page_last p = false) ->
  forall (fuel : nat) (s : net),
    fst (Stash.list_keys fuel self identity s) = OutOfFuel /\
    List.length (net_log (snd (Stash.list_keys fuel self identity s)))
    = (List.length (net_log s) + fuel)%nat.
Proof.
  intros Hserve fuel [w log].
  destruct (request_pages_endless _ _ list_keys_body_pure Hserve fuel
              (VInt 0) [] w log) as (w' & log' & Hrun & Hlen).
  assert (E : Stash.list_keys fuel self identity (mkNet w log)
              = (OutOfFuel, mkNet w' log')).
  { unfold Stash.list_keys, bind at 1.
    rewrite (for_request_list_compatible _ _ _ _ _ _ Hcompatible).
    now rewrite Hrun. }
  rewrite E. simpl. now split.
Qed.

(** X16: an answer to the first request of [StashKeyStore.list_keys] that
    is not a page makes the call raise after that one request: a 2xx
    status other than 200 raises [AssertionError], a body that is not JSON
    raises [ValueError], and a payload without [values] or without
    [isLastPage] raises the error of the lookup. *)
Theorem stash_list_keys_bad_answer (w w1 : world) (log : list Request)
  (r : response) (fuel : nat) :
  serve w (list_request self owner (VInt 0)) = (Answer r, w1) ->
  (200 <=? code r) && (code r <? 300) = true ->
  let s1 := mkNet w1 (log ++ [list_request self owner (VInt 0)]) in
  let result := Stash.list_keys (S fuel) self identity (mkNet w log) in
  (code r <> 200 -> result = (Raise AssertionError, s1)) /\
  (code r = 200 -> json r = None -> result = (Raise ValueError, s1)) /\
  (code r = 200 ->
   forall payload e,
     json r = Some payload -> getitem payload "values" = Raise e ->
     result = (Raise e, s1)) /\
  (code r = 200 ->
   forall payload values items e,
     json r = Some payload -> getitem payload "values" = Ret values ->
     py_iter values = Ret items ->
     getitem payload "isLastPage" = Raise e ->
     result = (Raise e, s1)).
Proof.
  intros Hs Hc s1 result.
  pose proof (eq_refl result) as E. unfold result at 2 in E.
  clearbody result.
  unfold Stash.list_keys, bind at 1 in E.
  rewrite (for_request_list_compatible _ _ _ _ _ _ Hcompatible) in E.
  cbn [Stash.request_pages] in E.
  unfold Stash.format01, Stash.format0, bind at 1, lift at 1 in E.
  unfold bind at 1 in E.
  rewrite (ks_request_list self identity owner _ _ Howner) in E.
  rewrite (urlopen_answer _ _ _ _ _ Hs Hc) in E. fold s1 in E.
  split; [|split; [|split]].
  - intro Hne. apply Z.eqb_neq in Hne. rewrite Hne in E. exact E.
  - intros He Hj. rewrite He in E. cbn [Z.eqb Pos.eqb negb] in E.
    rewrite Hj in E. exact E.
  - intros He payload e Hj Hv. rewrite He in E.
    cbn [Z.eqb Pos.eqb negb] in E. rewrite Hj in E.
    unfold bind, ret, lift in E. rewrite Hv in E. exact E.
  - intros He payload values items e Hj Hv Hit Hl. rewrite He in E.
    cbn [Z.eqb Pos.eqb negb] in E. rewrite Hj in E.
    unfold bind at 1 in E. unfold ret at 1 in E.
    unfold bind at 1 in E. unfold lift at 1 in E. rewrite Hv in E.
    unfold bind at 1 in E. unfold lift at 1 in E. rewrite Hit in E.
    unfold bind at 1 in E.
    rewrite (for_each_pure _ _ _ _ _ list_keys_body_pure) in E.
    unfold bind at 1 in E. unfold lift at 1 in E. rewrite Hl in E. exact E.
Qed.

End StashListingEdges.

(** X15 at a concrete input: a listing of pages that are never the last,
    and four turns of the loop. *)
Lemma stash_list_keys_endless_witness :
  fst (@Stash.list_keys stash_without_end sample_keys 4 example_store alice
         (start_of stash_without_end tt))
  = OutOfFuel /\
  List.length
    (@net_log stash_without_end
       (snd (@Stash.list_keys stash_without_end sample_keys 4 example_store
               alice (start_of stash_without_end tt))))
  = (0 + 4)%nat.
Proof.
  apply (@stash_list_keys_endless stash_without_end sample_keys example_store
           alice alice_owner eq_refl eq_refl).
  intros w start.
  exists (json_response 200 (page_payload [entry1] (Some 1))), w,
    (mkPage [entry1] false (VInt 1)).
  split; [reflexivity|]. split; [|reflexivity].
  split; [reflexivity|]. eexists _, _, _. repeat split; reflexivity.
Defined.

(** X16 at a concrete input: the provider answers 204 without a body. *)
Lemma stash_list_keys_bad_answer_witness :
  @Stash.list_keys stash_no_content sample_keys 1 example_store alice
    (start_of stash_no_content tt)
  = (Raise AssertionError,
     @mkNet stash_no_content tt
       [list_request example_store alice_owner (VInt 0)]).
Proof.
  refine (proj1 (@stash_list_keys_bad_answer stash_no_content sample_keys
                   example_store alice alice_owner eq_refl eq_refl
                   tt tt [] (text_response 204 "") 0 _ _) _).
  - reflexivity.
  - reflexivity.
  - discriminate.
Defined.

(** ** StashKeyStore: the shape of the access token *)

(** X17: with an identity that passes the guard but whose access token
    does not unpack to two items, [StashKeyStore.list_keys] and
    [deregister] raise the error of the unpacking, a [ValueError] or a
    [TypeError], before anything is sent. *)
Theorem stash_key_store_token_shape {R : Remote} {K : KeystoreModule}
  (self : Stash.StashKeyStore) (identity : Identity) (public_key : PublicKey)
  (fuel : nat) (s : net) (e : exn) :
  Stash.compatible self identity = Ret true ->
  unpack2 identity.(access_token) = Raise e ->
  Stash.list_keys (S fuel) self identity s = (Raise e, s) /\
  Stash.deregister (S fuel) self identity public_key s = (Raise e, s) /\
  (e = TypeError \/ e = ValueError).
Proof.
  intros Hc Hu. split; [|split].
  - unfold Stash.list_keys, bind at 1.
    rewrite (for_request_list_compatible _ _ _ _ _ _ Hc).
    cbn [Stash.request_pages].
    unfold Stash.format01, Stash.format0, Stash.ks_request, bind, lift.
    now rewrite Hu.
  - unfold Stash.deregister, bind at 1.
    rewrite (for_request_list_compatible _ _ _ _ _ _ Hc).
    cbn [Stash.request_pages].
    unfold Stash.format01, Stash.format0, Stash.ks_request, bind, lift.
    now rewrite Hu.
  - now apply unpack2_raises in Hu.
Qed.

(** X17 at a concrete input: an identity of the base class [Team] under
    the server's URL, with a token that is one string. *)
Lemma stash_key_store_token_shape_witness :
  let bob := mkIdentity TeamClass
               (VStr "https://stash.example.com/users/bob") (VStr "t0ken") in
  let s := start_of stash_with_five_keys tt in
  @Stash.list_keys stash_with_five_keys sample_keys 1 example_store bob s
  = (Raise ValueError, s).
Proof.
  intros bob s.
  refine (proj1 (@stash_key_store_token_shape stash_with_five_keys sample_keys
                   example_store bob (mkPublicKey "ssh-rsa" "AAAA1" "")
                   0 s ValueError _ _)); reflexivity.
Defined.

(** ** Loops whose body does nothing on the listed entries *)

Section QuietLoops.
Context {R : Remote} {K : KeystoreModule}.

Lemma for_each_pure_on {B : Type} (body : value -> B -> M (control B))
  (f : B -> value -> B) (items : list value) (acc : B) (s : net) :
  (forall key, In key items ->
               forall acc s, body key acc s = (Ret (Continue (f acc key)), s)) ->
  for_each items body acc s = (Ret (Continue (fold_left f items acc)), s).
Proof.
  revert acc. induction items as [|x items IH]; intros acc Hb; simpl.
  - reflexivity.
  - unfold bind. rewrite (Hb x (or_introl eq_refl)).
    apply IH. intros key Hin. apply Hb. now right.
Qed.

Lemma request_pages_step_on {B : Type} (self : Stash.StashKeyStore)
  (identity : Identity) (body : value -> B -> M (control B))
  (f : B -> value -> B) (owner : value * value)
  (w : world) (start : value) (r : response) (w1 : world) (p : page)
  (fuel : nat) (acc : B) (log : list Request) :
  (forall key, In key (page_values p) ->
               forall acc s, body key acc s = (Ret (Continue (f acc key)), s)) ->
  unpack2 identity.(access_token) = Ret owner ->
  serve w (list_request self owner start) = (Answer r, w1) ->
  reports r p ->
  Stash.request_pages (S fuel) self identity start body acc (mkNet w log)
  = let acc' := fold_left f (page_values p) acc in
    let s1 := mkNet w1 (log ++ [list_request self owner start]) in
    if page_last p then (Ret (Continue acc'), s1)
    else Stash.request_pages fuel self identity (page_next p) body acc' s1.
Proof.
  intros Hb Hown Hs (Hc & pl & vs & l & Hj & Hv & Hi & Hl & Ht & Hn).
  cbn [Stash.request_pages].
  unfold Stash.format01, Stash.format0, bind at 1, lift at 1.
  unfold bind at 1. rewrite (ks_request_list self identity owner start _ Hown).
  rewrite (urlopen_answer _ _ _ _ _ Hs) by now rewrite Hc.
  rewrite Hc. cbn [Z.eqb Pos.eqb negb]. rewrite Hj.
  unfold bind, ret, lift.
  rewrite Hv, Hi, (for_each_pure_on body f _ _ _ Hb), Hl, Ht.
  destruct (page_last p); [reflexivity|]. now rewrite (Hn eq_refl).
Qed.

Lemma request_pages_listing_on {B : Type} (self : Stash.StashKeyStore)
  (identity : Identity) (body : value -> B -> M (control B))
  (f : B -> value -> B) (owner : value * value)
  (w : world) (start : value) (pages : list page) (w' : world) :
  unpack2 identity.(access_token) = Ret owner ->
  listing self owner w start pages w' ->
  (forall key, In key (entries_of pages) ->
               forall acc s, body key acc s = (Ret (Continue (f acc key)), s)) ->
  forall (fuel : nat) (acc : B) (log : list Request),
    (List.length pages <= fuel)%nat ->
    Stash.request_pages fuel self identity start body acc (mkNet w log)
    = (Ret (Continue (fold_left f (entries_of pages) acc)),
       mkNet w' (log ++ map (list_request self owner) (cursors start pages))).
Proof.
  intros Hown Hl.
  induction Hl as [w start r w' p Hs Hrep Hlast
                  |w start r w1 p ps w' Hs Hrep Hlast Hrest IH];
    intros Hb fuel acc log Hfuel;
    (destruct fuel as [|fuel]; [simpl in Hfuel; lia|]);
    (assert (Hp : forall key, In key (page_values p) ->
                  forall acc s, body key acc s = (Ret (Continue (f acc key)), s))
       by (intros key Hin; apply Hb; unfold entries_of; simpl;
           apply in_or_app; now left));
    rewrite (request_pages_step_on self identity body f owner _ _ _ _ _ _ _ _
               Hp Hown Hs Hrep),
      Hlast; cbv zeta.
  - unfold entries_of; simpl. now rewrite app_nil_r.
  - rewrite IH.
    + unfold entries_of; simpl. rewrite fold_left_app, <- app_assoc.
      reflexivity.
    + intros key Hin. apply Hb. unfold entries_of; simpl. apply in_or_app.
      now right.
    + simpl in Hfuel; lia.
Qed.

(** X18: when every entry of the listing has a key and none of them equals
    the key to remove, [StashKeyStore.deregister] (with fuel for the
    pages) reads the whole listing, one request per page, sends nothing
    else and returns normally. *)
Theorem stash_deregister_absent_key (self : Stash.StashKeyStore)
  (identity : Identity) (owner : value * value) (public_key : PublicKey)
  (w w' : world) (pages : list page) (fuel : nat) (log : list Request) :
  Stash.compatible self identity = Ret true ->
  unpack2 identity.(access_token) = Ret owner ->
  listing self owner w (VInt 0) pages w' ->
  (forall e, In e (entries_of pages) ->
             exists k, entry_key "text" parse_openssh_pubkey e = Some k
                       /\ key_eqb k public_key = false) ->
  (List.length pages <= fuel)%nat ->
  Stash.deregister fuel self identity public_key (mkNet w log)
  = (Ret tt,
     mkNet w' (log ++ map (list_request self owner) (cursors (VInt 0) pages))).
Proof.
  intros Hc Hown Hl Hkeys Hfuel. unfold Stash.deregister, bind at 1.
  rewrite (for_request_list_compatible _ _ _ _ _ _ Hc).
  rewrite (request_pages_listing_on self identity _ (fun _ _ => tt) owner
             w (VInt 0) pages w' Hown Hl); [reflexivity| |exact Hfuel].
  intros key Hin acc s. destruct (Hkeys key Hin) as (k & Hk & Hne).
  destruct (entry_key_some _ _ _ _ Hk) as (line & Hg & Hp).
  unfold bind, lift. rewrite Hg, Hp, Hne. reflexivity.
Qed.

End QuietLoops.

(** X18 at a concrete input: a key that is not among the five on file. *)
Lemma stash_deregister_absent_key_witness :
  @Stash.deregister stash_with_five_keys sample_keys 3 example_store alice
    (mkPublicKey "ssh-rsa" "ZZZZ" "") (start_of stash_with_five_keys tt)
  = (Ret tt,
     @mkNet stash_with_five_keys tt
       [list_request example_store alice_owner (VInt 0);
        list_request example_store alice_owner (VInt 2);
        list_request example_store alice_owner (VInt 4)]).
Proof.
  refine (@stash_deregister_absent_key stash_with_five_keys sample_keys
            example_store alice alice_owner (mkPublicKey "ssh-rsa" "ZZZZ" "")
            tt tt five_pages 3 [] _ _ _ _ _).
  - reflexivity.
  - reflexivity.
  - eapply (@listing_more stash_with_five_keys);
      [reflexivity | | reflexivity |].
    { split; [reflexivity|]. eexists _, _, _. repeat split; reflexivity. }
    eapply (@listing_more stash_with_five_keys);
      [reflexivity | | reflexivity |].
    { split; [reflexivity|]. eexists _, _, _. repeat split; reflexivity. }
    eapply (@listing_last stash_with_five_keys);
      [reflexivity | | reflexivity].
    split; [reflexivity|]. eexists _, _, _. repeat split; try reflexivity.
    discriminate.
  - intros e Hin. simpl in Hin.
    repeat (destruct Hin as [<-|Hin]; [eexists; split; reflexivity|]).
    destruct Hin.
  - simpl. lia.
Defined.

(** ** GitHubKeyStore: listing, removing and registering keys *)

Section GitHubKeyStoreProperties.
Context {R : Remote} {K : KeystoreModule}.

Lemma matches_comment (public_key : PublicKey) (c : string) (e : value) :
  matches (mkPublicKey public_key.(algorithm) public_key.(material) c) e
  = matches public_key e.
Proof.
  unfold matches. destruct (entry_key "key" parse_line e); reflexivity.
Qed.

Lemma find_ext {A : Type} (f g : A -> bool) (l : list A) :
  (forall x, f x = g x) -> find f l = find g l.
Proof.
  intro H. induction l as [|x l IH]; simpl; [reflexivity|].
  now rewrite H, IH.
Qed.

Lemma delete_entry_log (identity : Identity) (entry id : value)
  (token : string) (s : net) :
  identity.(access_token) = VStr token ->
  getitem entry "id" = Ret id ->
  net_log (snd (delete_entry identity entry s))
  = (net_log s
       ++ [mkRequest DELETE ("https://api.github.com/user/keys/" ++ py_str id)
             (TokenAuth token) NoData])%list.
Proof.
  intros Htok Hid. unfold delete_entry, GitHub.DEREGISTER_URL, bind, lift.
  rewrite Hid.
  set (url := "https://api.github.com/user/keys/" ++ py_str id).
  pose proof (github_request_state (inl identity) url DELETE NoData s) as Hs.
  cbv beta iota in Hs. rewrite Htok in Hs.
  rewrite <- (urlopen_log (mkRequest DELETE url (TokenAuth token) NoData) s).
  rewrite <- Hs.
  destruct (GitHub.request _ url _ _ s) as [[v|e|] s1]; reflexivity.
Qed.

(** X19: on a listing whose entries all parse,
    [GitHubKeyStore.deregister] sends one DELETE, for the id of the first
    entry whose key equals the given one, and nothing when no entry does,
    in which case it returns normally; the comment of the given key plays
    no part in the choice. *)
Theorem github_deregister_first_match (identity : Identity)
  (public_key : PublicKey) (s s1 : net) (keys : value) (items : list value) :
  GitHub.request (inl identity) GitHub.LIST_URL GET NoData s = (Ret keys, s1) ->
  py_iter keys = Ret items ->
  Forall (fun e => entry_key "key" parse_line e <> None) items ->
  match find (matches public_key) items with
  | None => GitHub.deregister identity public_key s = (Ret tt, s1)
  | Some e =>
      forall id,
        getitem e "id" = Ret id ->
        exists token,
          identity.(access_token) = VStr token /\
          net_log (snd (GitHub.deregister identity public_key s))
          = (net_log s1
               ++ [mkRequest DELETE
                     ("https://api.github.com/user/keys/" ++ py_str id)
                     (TokenAuth token) NoData])%list
  end /\
  forall c,
    find (matches (mkPublicKey public_key.(algorithm) public_key.(material) c))
      items
    = find (matches public_key) items.
Proof.
  intros Hreq Hit Hall. split.
  - rewrite (github_deregister_spec identity public_key s s1 keys items
               Hreq Hit Hall).
    destruct (find (matches public_key) items) as [e|]; [|reflexivity].
    intros id Hid. apply github_request_ret_log in Hreq.
    destruct Hreq as (token & Htok & _). simpl in Htok.
    exists token. split; [exact Htok|].
    now apply delete_entry_log.
  - intro c. apply find_ext. intro e. apply matches_comment.
Qed.

(** X20: [GitHubKeyStore.list_keys] returns the set of the keys of the
    listed entries when every entry parses, after its one request, and
    raises when one of them does not. *)
Theorem github_list_keys_returns (identity : Identity) (s s1 : net)
  (keys : value) (items : list value) :
  GitHub.request (inl identity) GitHub.LIST_URL GET NoData s = (Ret keys, s1) ->
  py_iter keys = Ret items ->
  (Forall (fun e => entry_key "key" parse_line e <> None) items ->
   GitHub.list_keys identity s = (Ret (keys_of "key" parse_line items), s1)) /\
  ((exists e, In e items /\ entry_key "key" parse_line e = None) ->
   exists ex, GitHub.list_keys identity s = (Raise ex, s1)).
Proof.
  intros Hreq Hit. split.
  - intro Hall. unfold GitHub.list_keys.
    unfold bind at 1. rewrite Hreq. unfold bind at 1, lift at 1. rewrite Hit.
    unfold bind at 1.
    rewrite (for_each_pure_on _ (add_entry "key" parse_line)); [reflexivity|].
    intros key Hin acc s0. rewrite Forall_forall in Hall.
    specialize (Hall key Hin). unfold add_entry.
    destruct (entry_key "key" parse_line key) as [k|] eqn:Hk; [|now elim Hall].
    destruct (entry_key_some _ _ _ _ Hk) as (line & Hg & Hp).
    unfold bind, lift. now rewrite Hg, Hp.
  - intro Hbad. now apply (github_list_keys_raises identity s s1 keys items).
Qed.

(** X21: [GitHubKeyStore.register] sends one request whatever the
    identity's team: a POST to the key listing with the key's comment as
    [title] and its line as [key], authorized by the identity's token; it
    returns normally exactly when that request is answered with a 2xx
    status, content type [application/json] and a JSON body. *)
Theorem github_register_sends (identity : Identity) (public_key : PublicKey)
  (token : string) (s : net) :
  identity.(access_token) = VStr token ->
  net_log (snd (GitHub.register identity public_key s))
  = (net_log s ++ [github_register_request token public_key])%list /\
  (fst (GitHub.register identity public_key s) = Ret tt <->
   exists r s' v,
     urlopen (github_register_request token public_key) s = (Ret r, s') /\
     mimetype r = "application/json" /\ json r = Some v).
Proof.
  intro Htok. unfold GitHub.register, GitHub.request, github_register_request.
  rewrite Htok. unfold bind. simpl.
  pose proof (urlopen_log (github_register_request token public_key) s) as Hl.
  unfold github_register_request in Hl.
  destruct (urlopen _ s) as [[r|e|] s1] eqn:Hopen; simpl in *.
  - destruct (mimetype r =? "application/json")%string eqn:Hm; simpl.
    + destruct (json r) as [v|] eqn:Hj; unfold ret, raise; simpl.
      * split; [exact Hl|]. split; [|reflexivity]. intros _.
        exists r, s1, v. apply String.eqb_eq in Hm. now repeat split.
      * split; [exact Hl|]. split; [discriminate|].
        intros (r' & s' & v & H & _ & Hj'). inversion H; subst. congruence.
    + unfold raise; simpl. split; [exact Hl|]. split; [discriminate|].
      intros (r' & s' & v & H & Hm' & _). inversion H; subst.
      rewrite Hm' in Hm. discriminate.
  - split; [exact Hl|]. split; [discriminate|].
    intros (r' & s' & v & H & _). discriminate.
  - split; [exact Hl|]. split; [discriminate|].
    intros (r' & s' & v & H & _). discriminate.
Qed.

End GitHubKeyStoreProperties.

(** X19 at a concrete input: the key is on file twice, as entries 2 and 3;
    entry 2 is deleted. *)
Lemma github_deregister_first_match_witness :
  exists token,
    octocat.(access_token) = VStr token /\
    @net_log github_two_keys
      (snd (@GitHub.deregister github_two_keys sample_keys octocat
              (mkPublicKey "ssh-ed25519" "AAAA3" "third")
              (start_of github_two_keys tt)))
    = ([mkRequest GET GitHub.LIST_URL (TokenAuth "t0ken") NoData]
         ++ [mkRequest DELETE
               ("https://api.github.com/user/keys/" ++ py_str (VInt 2))
               (TokenAuth token) NoData])%list.
Proof.
  pose proof (proj1 (@github_deregister_first_match github_two_keys sample_keys
                       octocat (mkPublicKey "ssh-ed25519" "AAAA3" "third")
                       (start_of github_two_keys tt)
                       (@mkNet github_two_keys tt
                          [mkRequest GET GitHub.LIST_URL (TokenAuth "t0ken")
                             NoData])
                       (VList two_keys_items) two_keys_items
                       eq_refl eq_refl
                       ltac:(repeat constructor; discriminate))) as H.
  exact (H (VInt 2) eq_refl).
Defined.

(** X20 at a concrete input: three entries, two distinct keys. *)
Lemma github_list_keys_returns_witness :
  @GitHub.list_keys github_two_keys sample_keys octocat
    (start_of github_two_keys tt)
  = (Ret [mkPublicKey "ssh-rsa" "AAAA1" "alice@laptop";
          mkPublicKey "ssh-ed25519" "AAAA3" "first"],
     @mkNet github_two_keys tt
       [mkRequest GET GitHub.LIST_URL (TokenAuth "t0ken") NoData]).
Proof.
  refine (proj1 (@github_list_keys_returns github_two_keys sample_keys
                   octocat (start_of github_two_keys tt) _
                   (VList two_keys_items) two_keys_items eq_refl eq_refl) _).
  repeat constructor; discriminate.
Defined.

(** X21 at a concrete input: [octocat] registers a key. *)
Lemma github_register_sends_witness :
  @net_log github_two_keys
    (snd (@GitHub.register github_two_keys sample_keys octocat
            (mkPublicKey "ssh-rsa" "AAAA9" "new")
            (start_of github_two_keys tt)))
  = ([] ++ [@github_register_request sample_keys "t0ken"
              (mkPublicKey "ssh-rsa" "AAAA9" "new")])%list.
Proof.
  refine (proj1 (@github_register_sends github_two_keys sample_keys octocat
                   (mkPublicKey "ssh-rsa" "AAAA9" "new") "t0ken"
                   (start_of github_two_keys tt) eq_refl)).
Defined.

(** ** The sets that list_keys returns *)

Lemma key_eqb_sym (a b : PublicKey) : key_eqb a b = key_eqb b a.
Proof.
  unfold key_eqb.
  now rewrite (String.eqb_sym (algorithm a)), (String.eqb_sym (material a)).
Qed.

Lemma distinct_keys_snoc (s : list PublicKey) (k : PublicKey) :
  distinct_keys s -> key_in k s = false -> distinct_keys (s ++ [k]).
Proof.
  unfold distinct_keys, key_in. induction s as [|a s IH]; simpl; intros Hd Hin.
  - constructor; constructor.
  - apply orb_false_iff in Hin. destruct Hin as [Ha Hin].
    inversion Hd as [|? ? Hfa Hds]; subst. constructor.
    + apply Forall_app. split; [exact Hfa|]. constructor; [|constructor].
      now rewrite key_eqb_sym.
    + now apply IH.
Qed.

Lemma set_add_distinct (s : list PublicKey) (k : PublicKey) :
  distinct_keys s -> distinct_keys (set_add k s).
Proof.
  intro Hd. unfold set_add. destruct (key_in k s) eqn:Hin; [exact Hd|].
  now apply distinct_keys_snoc.
Qed.

Lemma bind_ret_inv {R : Remote} {A B : Type} (m : M A) (k : A -> M B)
  (s s' : net) (b : B) :
  bind m k s = (Ret b, s') ->
  exists a s1, m s = (Ret a, s1) /\ k a s1 = (Ret b, s').
Proof.
  unfold bind. destruct (m s) as [[a|e|] s1]; intro H; try discriminate.
  now exists a, s1.
Qed.

Section LoopInvariants.
Context {R : Remote} {K : KeystoreModule}.

(** A property of the loop's variables that every turn of the body keeps
    holds when the loop is over. *)
Lemma for_each_keeps {B : Type} (P : B -> Prop)
  (body : value -> B -> M (control B)) :
  (forall key acc s c s',
      P acc -> body key acc s = (Ret c, s') ->
      P (match c with Continue a | Break a => a end)) ->
  forall items acc s c s',
    P acc -> for_each items body acc s = (Ret c, s') ->
    P (match c with Continue a | Break a => a end).
Proof.
  intros Hb. induction items as [|x items IH]; intros acc s c s' HP H.
  - simpl in H. inversion H; subst. exact HP.
  - simpl in H. apply bind_ret_inv in H. destruct H as (c1 & s1 & H1 & H).
    pose proof (Hb _ _ _ _ _ HP H1) as HP1. destruct c1 as [acc'|acc'].
    + eapply IH; eassumption.
    + inversion H; subst. exact HP1.
Qed.

Lemma request_pages_keeps {B : Type} (P : B -> Prop)
  (self : Stash.StashKeyStore) (identity : Identity)
  (body : value -> B -> M (control B)) :
  (forall key acc s c s',
      P acc -> body key acc s = (Ret c, s') ->
      P (match c with Continue a | Break a => a end)) ->
  forall fuel start acc s c s',
    P acc ->
    Stash.request_pages fuel self identity start body acc s = (Ret c, s') ->
    P (match c with Continue a | Break a => a end).
Proof.
  intros Hb. induction fuel as [|fuel IH]; intros start acc s c s' HP H;
    [discriminate|].
  cbn [Stash.request_pages] in H.
  apply bind_ret_inv in H. destruct H as (url & s0 & _ & H).
  apply bind_ret_inv in H. destruct H as (r & s1 & _ & H).
  destruct (negb (code r =? 200)); [discriminate|].
  apply bind_ret_inv in H. destruct H as (payload & s2 & _ & H).
  apply bind_ret_inv in H. destruct H as (values & s3 & _ & H).
  apply bind_ret_inv in H. destruct H as (items & s4 & _ & H).
  apply bind_ret_inv in H. destruct H as (c1 & s5 & Hloop & H).
  pose proof (for_each_keeps P body Hb _ _ _ _ _ HP Hloop) as HP1.
  destruct c1 as [acc'|acc'].
  - apply bind_ret_inv in H. destruct H as (last & s6 & _ & H).
    destruct (truthy last).
    + inversion H; subst. exact HP1.
    + apply bind_ret_inv in H. destruct H as (start' & s7 & _ & H).
      eapply IH; eassumption.
  - inversion H; subst. exact HP1.
Qed.

End LoopInvariants.

(** X22: a set that [StashKeyStore.list_keys] or
    [GitHubKeyStore.list_keys] returns never holds two equal keys
    (equality over algorithm and material), whatever the provider lists
    and however often a key is on file. *)
Theorem list_keys_distinct {R : Remote} {K : KeystoreModule} :
  (forall fuel self identity s result s',
      Stash.list_keys fuel self identity s = (Ret result, s') ->
      distinct_keys result) /\
  (forall identity s result s',
      GitHub.list_keys identity s = (Ret result, s') ->
      distinct_keys result).
Proof.
  split.
  - intros fuel self identity s result s' H. unfold Stash.list_keys in H.
    apply bind_ret_inv in H. destruct H as (c & s1 & Hloop & H).
    assert (HP : distinct_keys (match c with Continue a | Break a => a end)).
    { unfold Stash.for_request_list in Hloop.
      apply bind_ret_inv in Hloop. destruct Hloop as (ok & s0 & _ & Hloop).
      destruct (negb ok).
      - inversion Hloop; subst. constructor.
      - eapply (request_pages_keeps distinct_keys self identity);
          [|constructor|exact Hloop].
        intros key acc s2 c2 s2' Hacc Hbody.
        apply bind_ret_inv in Hbody.
        destruct Hbody as ([pubkey|] & s3 & _ & Hbody);
          inversion Hbody; subst; [now apply set_add_distinct | exact Hacc]. }
    destruct c; inversion H; subst; exact HP.
  - intros identity s result s' H. unfold GitHub.list_keys in H.
    apply bind_ret_inv in H. destruct H as (keys & s1 & _ & H).
    apply bind_ret_inv in H. destruct H as (items & s2 & _ & H).
    apply bind_ret_inv in H. destruct H as (c & s3 & Hloop & H).
    assert (HP : distinct_keys (match c with Continue a | Break a => a end)).
    { eapply (for_each_keeps distinct_keys); [|constructor|exact Hloop].
      intros key acc s4 c4 s4' Hacc Hbody.
      apply bind_ret_inv in Hbody. destruct Hbody as (line & s5 & _ & Hbody).
      apply bind_ret_inv in Hbody. destruct Hbody as (pubkey & s6 & _ & Hbody).
      inversion Hbody; subst. now apply set_add_distinct. }
    destruct c; inversion H; subst; exact HP.
Qed.
